(** * django-dataclass-models: the relationship registry and the typed
    model metaclass

    A shallow embedding of [foreign_key_typing.py], [models.py] and
    [checks.py].  Python exceptions are values of [exn]; code that can raise
    returns a [result]; code that mutates the class-level registry takes the
    registry and returns the registry it leaves behind together with its
    outcome, because what was written before a [raise] stays written. *)

From Stdlib Require Import String Ascii List Bool Arith NArith Lia.
From stdpp Require Import base decidable option list strings.

Local Open Scope string_scope.

(** ** Exceptions and results *)

Inductive exn : Type :=
  | ValueError (msg : string)
  | NotImplementedError (msg : string)
  | TypeError (msg : string)
  | KeyError (msg : string)
  | IndexError (msg : string)
  | RecursionError.

Inductive result (A : Type) : Type :=
  | Ok (a : A)
  | Raise (e : exn).
Arguments Ok {A} a.
Arguments Raise {A} e.

Definition bind {A B : Type} (c : result A) (f : A -> result B) : result B :=
  match c with
  | Ok a => f a
  | Raise e => Raise e
  end.

Notation "'do' x <- c ; k" := (bind c (fun x => k))
  (at level 10, x name, c at level 100, k at level 200).

Fixpoint mapM {A B : Type} (f : A -> result B) (l : list A) : result (list B) :=
  match l with
  | [] => Ok []
  | a :: l' => do b <- f a; do bs <- mapM f l'; Ok (b :: bs)
  end.

(** ** Strings

    A Python [str] is modelled as a Rocq [string]; its characters are the
    code points 0..255 (Latin-1), on which [str.islower] and [str.lower] are
    the functions below.  Strings with other characters, on which
    [str.lower] is no longer a map of single characters, are outside the
    model. *)

Definition code (c : ascii) : N := N_of_ascii c.

Definition in_range (lo hi n : N) : bool := (lo <=? n)%N && (n <=? hi)%N.

(** [c.islower()] for a one-character string. *)
Definition islower (c : ascii) : bool :=
  let n := code c in
  in_range 97 122 n || (n =? 170)%N || (n =? 181)%N || (n =? 186)%N
  || in_range 223 246 n || in_range 248 255 n.

Definition isupper (c : ascii) : bool :=
  let n := code c in
  in_range 65 90 n || in_range 192 214 n || in_range 216 222 n.

Definition isdigit (c : ascii) : bool := in_range 48 57 (code c).

(** [c.isascii()] *)
Definition isascii (c : ascii) : bool := (code c <? 128)%N.

Definition lower_char (c : ascii) : ascii :=
  if isupper c then ascii_of_N (code c + 32) else c.

(** [s.lower()] *)
Fixpoint lower (s : string) : string :=
  match s with
  | EmptyString => EmptyString
  | String c s' => String (lower_char c) (lower s')
  end.

Fixpoint all_chars (p : ascii -> bool) (s : string) : bool :=
  match s with
  | EmptyString => true
  | String c s' => p c && all_chars p s'
  end.

Fixpoint has_char (c : ascii) (s : string) : Prop :=
  match s with
  | EmptyString => False
  | String c' s' => c = c' \/ has_char c s'
  end.

(** models.py: [all(c.islower() or c == "_" for c in name)] *)
Definition is_snake_case (name : string) : bool :=
  all_chars (fun c => islower c || Ascii.eqb c "_"%char) name.

(** ** Insertion-ordered dictionaries

    A Python [dict]: [d[k] = v] overwrites in place when [k] is present and
    appends otherwise, so iteration follows first insertion. *)

Section Dict.
Context {K V : Type} `{EqDecision K}.

Definition dict : Type := list (K * V).

Fixpoint dict_get (d : dict) (k : K) : option V :=
  match d with
  | [] => None
  | (k', v) :: d' => if decide (k = k') then Some v else dict_get d' k
  end.

Fixpoint dict_set (d : dict) (k : K) (v : V) : dict :=
  match d with
  | [] => [(k, v)]
  | (k', v') :: d' =>
      if decide (k = k') then (k', v) :: d' else (k', v') :: dict_set d' k v
  end.

(** [del d[k]], for a key that is present. *)
Fixpoint dict_del (d : dict) (k : K) : dict :=
  match d with
  | [] => []
  | (k', v') :: d' =>
      if decide (k = k') then d' else (k', v') :: dict_del d' k
  end.

Definition dict_values (d : dict) : list V := map snd d.
Definition dict_keys (d : dict) : list K := map fst d.
End Dict.

Arguments dict K V : clear implicits.

(** ** Classes

    A class object is its name, the names of the other classes of its method
    resolution order, and the four relationship flags that Django's field
    classes and [OneToManyFieldStandIn] carry as class attributes (a flag is
    [true] exactly when the attribute [is True]). *)

Record pyclass : Type := {
  cls_name : string;
  cls_bases : list string;
  many_to_many : bool;
  one_to_one : bool;
  one_to_many : bool;
  many_to_one : bool
}.

Definition issubclass (c : pyclass) (base : string) : bool :=
  String.eqb (cls_name c) base || existsb (String.eqb base) (cls_bases c).

Definition plain_class (name : string) (bases : list string) : pyclass :=
  {| cls_name := name; cls_bases := bases; many_to_many := false;
     one_to_one := false; one_to_many := false; many_to_one := false |}.

(** The classes of [django.db.models] that the package names, with the
    hierarchy and the flags Django gives them. *)
Module models.
Definition Model : pyclass := plain_class "Model" ["object"].
Definition Field : pyclass := plain_class "Field" ["RegisterLookupMixin"; "object"].
Definition field_bases : list string := ["Field"; "RegisterLookupMixin"; "object"].
Definition related_bases : list string :=
  "RelatedField" :: "FieldCacheMixin" :: field_bases.
Definition ForeignKey : pyclass :=
  {| cls_name := "ForeignKey"; cls_bases := "ForeignObject" :: related_bases;
     many_to_many := false; one_to_one := false; one_to_many := false;
     many_to_one := true |}.
Definition OneToOneField : pyclass :=
  {| cls_name := "OneToOneField";
     cls_bases := "ForeignKey" :: "ForeignObject" :: related_bases;
     many_to_many := false; one_to_one := true; one_to_many := false;
     many_to_one := false |}.
Definition ManyToManyField : pyclass :=
  {| cls_name := "ManyToManyField"; cls_bases := related_bases;
     many_to_many := true; one_to_one := false; one_to_many := false;
     many_to_one := false |}.
Definition simple_field (name : string) : pyclass := plain_class name field_bases.
Definition CharField := simple_field "CharField".
Definition IntegerField := simple_field "IntegerField".
Definition FloatField := simple_field "FloatField".
Definition BooleanField := simple_field "BooleanField".
Definition DateTimeField := simple_field "DateTimeField".
Definition DateField := simple_field "DateField".
Definition TimeField := simple_field "TimeField".
Definition DurationField := simple_field "DurationField".
Definition DecimalField := simple_field "DecimalField".
Definition JSONField := simple_field "JSONField".
Definition BinaryField := simple_field "BinaryField".
End models.

(** foreign_key_typing.py: [class OneToManyFieldStandIn], with its four
    class attributes. *)
Definition OneToManyFieldStandIn : pyclass :=
  {| cls_name := "OneToManyFieldStandIn"; cls_bases := ["object"];
     many_to_many := false; one_to_one := false; one_to_many := true;
     many_to_one := true |}.

(** ** foreign_key_typing.py: [ForeignRegistry] *)

Definition ONE_TO_ONE : string := "OneToOne".
Definition ONE_TO_MANY : string := "OneToMany".
Definition MANY_TO_ONE : string := "ManyToOne".
Definition MANY_TO_MANY : string := "ManyToMany".

(** The four members of the [valid_mode] literal type. *)
Definition valid_mode (m : string) : Prop :=
  m = ONE_TO_ONE \/ m = ONE_TO_MANY \/ m = MANY_TO_ONE \/ m = MANY_TO_MANY.

Definition is_valid_mode (m : string) : bool :=
  String.eqb m ONE_TO_ONE || String.eqb m ONE_TO_MANY
  || String.eqb m MANY_TO_ONE || String.eqb m MANY_TO_MANY.

Definition field_type_to_mode (field_type : pyclass) : result string :=
  if issubclass field_type "ForeignKey" then Ok MANY_TO_ONE
  else if issubclass field_type "ManyToManyField" then Ok MANY_TO_MANY
  else if issubclass field_type "OneToOneField" then Ok ONE_TO_ONE
  else if issubclass field_type "OneToManyFieldStandIn" then Ok ONE_TO_MANY
  else Raise (ValueError "Unknown field type").

Definition flip_mode (m : string) : result string :=
  if String.eqb m ONE_TO_ONE then Ok ONE_TO_ONE
  else if String.eqb m ONE_TO_MANY then Ok MANY_TO_ONE
  else if String.eqb m MANY_TO_ONE then Ok ONE_TO_MANY
  else if String.eqb m MANY_TO_MANY then Ok MANY_TO_MANY
  else Raise (ValueError "reverse not found").

Definition str_to_mode (m : string) : result string :=
  if String.eqb m ONE_TO_ONE then Ok ONE_TO_ONE
  else if String.eqb m ONE_TO_MANY then Ok ONE_TO_MANY
  else if String.eqb m MANY_TO_ONE then Ok MANY_TO_ONE
  else if String.eqb m MANY_TO_MANY then Ok MANY_TO_MANY
  else Raise (ValueError "Unknown mode").

(** A relationship record: the attributes [__init__] sets on [self]. *)
Record ForeignRegistry : Type := {
  mode : string;
  modelA : string;
  modelB : string;
  fieldA : string;
  fieldB : option string;
  reverse_created : bool
}.

Definition set_reverse_created (r : ForeignRegistry) : ForeignRegistry :=
  {| mode := mode r; modelA := modelA r; modelB := modelB r;
     fieldA := fieldA r; fieldB := fieldB r; reverse_created := true |}.

(** [_key_type]: (mode, modelA, modelB, fieldA, fieldB). *)
Definition key : Type := string * string * string * string * string.

(** What [get_reverse_key] returns: the fourth component is [self.fieldB],
    which the method does not test for [None]. *)
Definition reverse_tuple : Type := string * string * string * option string * string.

(** [get_key]: with [fieldB] missing, building the message of the
    [ValueError] calls [get_key] again, without end. *)
Definition get_key (r : ForeignRegistry) : result key :=
  match fieldB r with
  | None => Raise RecursionError
  | Some fb => Ok (mode r, modelA r, modelB r, fieldA r, fb)
  end.

Definition reverse_mode (r : ForeignRegistry) : result string := flip_mode (mode r).

Definition get_reverse_key (r : ForeignRegistry) : result reverse_tuple :=
  do m <- flip_mode (mode r);
  Ok (m, modelB r, modelA r, fieldB r, fieldA r).

(** The class attribute [_registry].  The objects it holds are the only
    ones the class mutates, so an object is identified with the slot that
    holds it: [reverse.reverse_created = True] rewrites the slot of
    [reverse]. *)
Definition registry : Type := dict key ForeignRegistry.

(** [rkey in self._registry] and [self._registry[rkey]]: a tuple with a
    [None] in it equals no key. *)
Definition as_key (t : reverse_tuple) : option key :=
  match t with
  | (m, a, b, Some f, g) => Some (m, a, b, f, g)
  | (_, _, _, None, _) => None
  end.

Definition registry_find (reg : registry) (t : reverse_tuple) : option ForeignRegistry :=
  match as_key t with
  | Some k => dict_get reg k
  | None => None
  end.

(** The values [__init__] accepts as [mode]: a mode string, a class, an
    instance of a [RelatedBase] subclass, a generic alias. *)
Inductive mode_arg : Type :=
  | ModeStr (s : string)
  | ModeType (t : pyclass)
  | ModeRelated (cls : pyclass)
  | ModeAlias (origin : pyclass).

(** [__init__], lines 258-265 *)
Definition resolve_mode (m : mode_arg) : result string :=
  match m with
  | ModeStr s => Ok s
  | ModeType t => field_type_to_mode t
  | ModeRelated cls => str_to_mode (cls_name cls)
  | ModeAlias origin => str_to_mode (cls_name origin)
  end.

(** [__init__], lines 266-274 *)
Definition default_fieldB (m modelA : string) (fieldB : option string) : option string :=
  match fieldB with
  | Some fb => Some fb
  | None =>
      if String.eqb m ONE_TO_ONE then Some (lower modelA)
      else if String.eqb m ONE_TO_MANY then Some (lower modelA ++ "_set")
      else if String.eqb m MANY_TO_ONE then Some (lower modelA ++ "_set")
      else if String.eqb m MANY_TO_MANY then Some (lower modelA ++ "_set")
      else None
  end.

(** [__init__], lines 258-281: the object as it stands before it is stored. *)
Definition new_record (m : mode_arg) (mA mB fA : string) (fB : option string)
  : result ForeignRegistry :=
  do s <- resolve_mode m;
  Ok {| mode := s; modelA := mA; modelB := mB; fieldA := fA;
        fieldB := default_fieldB s mA fB; reverse_created := false |}.

(** [check_for_reverse], for the object stored under [k]. *)
Definition check_for_reverse (reg : registry) (k : key) (self : ForeignRegistry)
  : registry * result ForeignRegistry :=
  match get_reverse_key self with
  | Raise e => (reg, Raise e)
  | Ok rkey =>
      match registry_find reg rkey with
      | None => (reg, Ok self)
      | Some _ =>
          let self' := set_reverse_created self in
          let reg1 := dict_set reg k self' in
          match registry_find reg1 rkey with
          | None => (reg1, Raise (KeyError "rkey"))
          | Some reverse =>
              if reverse_created reverse then
                match get_key reverse with
                | Raise e => (reg1, Raise e)
                | Ok _ =>
                    (reg1, Raise (ValueError
                       "Multiple possible reverse relationships registered for relationship"))
                end
              else
                match as_key rkey with
                | Some rk => (dict_set reg1 rk (set_reverse_created reverse), Ok self')
                | None => (reg1, Ok self')
                end
          end
      end
  end.

(** [ForeignRegistry.__init__]: the registry it leaves and the object it
    returns. *)
Definition init (reg : registry) (m : mode_arg) (mA mB fA : string) (fB : option string)
  : registry * result ForeignRegistry :=
  match new_record m mA mB fA fB with
  | Raise e => (reg, Raise e)
  | Ok self =>
      match get_key self with
      | Raise e => (reg, Raise e)
      | Ok k => check_for_reverse (dict_set reg k self) k self
      end
  end.

Definition all_relationships_resolved (reg : registry) : list ForeignRegistry :=
  filter (fun r => reverse_created r = false) (dict_values reg).

Definition check_model_valid (reg : registry) (model : string) : list ForeignRegistry :=
  filter (fun r => modelB r = model /\ reverse_created r = false) (dict_values reg).

(** The registries a process can hold: [_registry] starts empty and only
    [__init__] writes to it, whether it returns or raises. *)
Inductive reachable : registry -> Prop :=
  | reachable_empty : reachable []
  | reachable_init reg m mA mB fA fB :
      reachable reg -> reachable (fst (init reg m mA mB fA fB)).

(** ** checks.py: [reverse_foreign_key_warning] *)

(** What the check reads of a class found in [apps.all_models]. *)
Record installed_model : Type := {
  model_name : string;            (* model.__name__ *)
  app_label : string;             (* model._meta.app_label *)
  is_typed_model : bool           (* issubclass(model, TypedModel) *)
}.

(** [django.core.checks.Warning(msg, hint=, obj=, id=)] *)
Record CheckMessage : Type := {
  cm_msg : string;
  cm_hint : string;
  cm_obj : string;
  cm_id : string
}.

Definition str_of_option (o : option string) : string :=
  match o with Some s => s | None => "None" end.

Definition join_dot (parts : list string) : string := String.concat "." parts.

Definition warning_for (model : installed_model) (ir : ForeignRegistry)
  : result CheckMessage :=
  do rm <- reverse_mode ir;
  Ok {| cm_msg := "Missing explicit reverse relationship for this foreign key. Django doesn't require this, but it helps with typing.";
        cm_hint := "Expecting equivalent in " ++ modelB ir ++ " model of '"
                   ++ str_of_option (fieldB ir) ++ ": " ++ rm ++ "[" ++ modelA ir
                   ++ "] = related('" ++ fieldA ir ++ "')'";
        cm_obj := join_dot [app_label model; modelA ir; fieldA ir];
        cm_id := "freeform.W001" |}.

Definition warnings_for_model (reg : registry) (model : installed_model)
  : result (list CheckMessage) :=
  if is_typed_model model
  then mapM (warning_for model) (check_model_valid reg (model_name model))
  else Ok [].

(** [all_models] lists [apps.all_models.values()], each entry the values of
    one application's dictionary. *)
Definition reverse_foreign_key_warning (reg : registry)
    (all_models : list (list installed_model)) : result (list CheckMessage) :=
  do per_model <- mapM (warnings_for_model reg) (concat all_models);
  Ok (concat per_model).

(** ** Type hints

    The objects an evaluated annotation can be.  [pyobj] are the objects
    that stand alone or as arguments; a [hint] is one of them, an instance
    of a [RelatedBase] subclass ([OneToOne[M]] is [OneToOne(M)], by
    [HolderBase.__getitem__]), a generic alias, an [Annotated] form or a
    union. *)

Inductive pyobj : Type :=
  | OClass (c : pyclass)
  | OStr (s : string)
  | OSelf                                   (* typing.Self *)
  | OForwardRef (s : string)                (* typing.ForwardRef(s) *)
  | OAny.                                   (* typing.Any *)

(** Values of keyword arguments. *)
Inductive kwval : Type :=
  | KBool (b : bool)
  | KInt (n : N)
  | KStr (s : string)
  | KObj (o : pyobj)
  | KCascade.                               (* models.CASCADE *)

(** models.py: [class FieldLookup] *)
Record FieldLookup : Type := {
  field : pyclass;
  default_key : string;
  default_kwargs : dict string kwval
}.

Inductive metadata_item : Type :=
  | MLookup (lk : FieldLookup)
  | MClass (c : pyclass)
  | MDict (d : dict string kwval)
  | MOther.

#[local] Set Warnings "-register-all".
Inductive hint : Type :=
  | HObj (o : pyobj)
  | HRelated (cls : pyclass) (item : pyobj)
  | HAlias (origin : option pyclass) (args : list pyobj)
  | HAnnotated (origin : pyobj) (metadata : list metadata_item)
  | HUnion (args : list hint).

(** foreign_key_typing.py: the hint classes. *)
Definition RelatedBase : pyclass := plain_class "RelatedBase" ["object"].
Definition OneToOne : pyclass := plain_class "OneToOne" ["RelatedBase"; "object"].
Definition ManyToOne : pyclass := plain_class "ManyToOne" ["RelatedBase"; "object"].
Definition manager_bases : list string := ["Generic"; "Manager"; "object"].
Definition GenericManager : pyclass := plain_class "GenericManager" manager_bases.
Definition OneToMany : pyclass :=
  plain_class "OneToMany" ("GenericManager" :: manager_bases).
Definition ManyToMany : pyclass :=
  plain_class "ManyToMany" ("GenericManager" :: manager_bases).

(** [X[M]] for a generic class [X]: [typing] keeps a string argument as a
    forward reference. *)
Definition generic_alias (origin : pyclass) (M : pyobj) : hint :=
  HAlias (Some origin) [match M with OStr s => OForwardRef s | _ => M end].

Definition NoneType : pyclass := plain_class "NoneType" ["object"].

(** models.py: [fix_self] *)
Definition fix_self (obj : pyobj) : pyobj :=
  match obj with
  | OSelf => OStr "self"
  | OStr s => if String.eqb s "Self" then OStr "self" else obj
  | _ => obj
  end.

Definition fix_self_hint (h : hint) : hint :=
  match h with
  | HObj o => HObj (fix_self o)
  | _ => h
  end.

(** annotation_funcs.py: [get_specialisation_name_or_type] *)
Definition get_specialisation_name_or_type (args : list pyobj) : result pyobj :=
  match args with
  | [] => Raise (IndexError "tuple index out of range")
  | OForwardRef s :: _ => Ok (OStr s)
  | first_arg :: _ => Ok first_arg
  end.

(** [FieldLookup(field, default_key, ...)] with the remaining keyword
    arguments *)
Definition mk_lookup (f : pyclass) (key : string) (kwargs : dict string kwval)
  : FieldLookup :=
  {| field := f; default_key := key; default_kwargs := kwargs |}.

(** An object built by calling a field class: Django's constructors are
    not interpreted, the object is its class and the keyword arguments it
    was built from; the checks Django makes on them (a [to] that is neither
    a model nor a name is a [TypeError] there) are not part of the model.
    [remote_field.model] is its [to] and [remote_field.related_name] its
    [related_name], as for [OneToManyFieldStandIn]. *)
Record field_object : Type := {
  fo_class : pyclass;
  fo_kwargs : dict string kwval
}.

Definition standin_parameters : list string := ["to"; "related_name"; "null"; "blank"].

(** [self.field] called with the keyword arguments:
    [OneToManyFieldStandIn.__init__] requires [to]
    and knows four parameters. *)
Definition instantiate (c : pyclass) (kwargs : dict string kwval) : result field_object :=
  if String.eqb (cls_name c) "OneToManyFieldStandIn" then
    if negb (forallb (fun k => existsb (String.eqb k) standin_parameters)
               (dict_keys kwargs))
    then Raise (TypeError "__init__() got an unexpected keyword argument")
    else match dict_get kwargs "to" with
         | None => Raise (TypeError "__init__() missing 1 required positional argument: 'to'")
         | Some _ => Ok {| fo_class := c; fo_kwargs := kwargs |}
         end
  else Ok {| fo_class := c; fo_kwargs := kwargs |}.

Definition nonempty (s : string) : bool :=
  match s with EmptyString => false | _ => true end.

(** [FieldLookup.item] *)
Definition item (lk : FieldLookup) (default : option string) (null blank : bool)
  : result field_object :=
  let kwargs := default_kwargs lk in
  let kwargs := if null then dict_set kwargs "null" (KBool null) else kwargs in
  let kwargs := if blank then dict_set kwargs "blank" (KBool blank) else kwargs in
  let kwargs :=
    match default with
    | Some s => if nonempty s then dict_set kwargs (default_key lk) (KStr s) else kwargs
    | None => kwargs
    end in
  instantiate (field lk) kwargs.

(** The lookup table [types_to_fields], keyed by class; a class is
    identified by its name. *)
Definition types_to_fields : dict string FieldLookup :=
  [ ("str", mk_lookup models.CharField "default" [("max_length", KInt 255)]);
    ("int", mk_lookup models.IntegerField "default" []);
    ("float", mk_lookup models.FloatField "default" []);
    ("bool", mk_lookup models.BooleanField "default" []);
    ("datetime", mk_lookup models.DateTimeField "default" []);
    ("date", mk_lookup models.DateField "default" []);
    ("time", mk_lookup models.TimeField "default" []);
    ("timedelta", mk_lookup models.DurationField "default" []);
    ("Decimal", mk_lookup models.DecimalField "default"
                  [("max_digits", KInt 10); ("decimal_places", KInt 2)]);
    ("list", mk_lookup models.JSONField "default" []);
    ("dict", mk_lookup models.JSONField "default" []);
    ("bytes", mk_lookup models.BinaryField "default" []) ].

(** [FieldTypeRegistry.register] *)
Definition register (lookup_registry : dict string FieldLookup) (field_type : pyclass)
    (f : FieldLookup) : dict string FieldLookup :=
  dict_set lookup_registry (cls_name field_type) f.

Definition isinstance_related (h : hint) (base : string) : bool :=
  match h with
  | HRelated cls _ => issubclass cls base
  | _ => false
  end.

Definition related_item (h : hint) : pyobj :=
  match h with
  | HRelated _ o => o
  | _ => OAny
  end.

(** [hasattr(field_type, "__origin__")]; a union is taken in its [X | Y]
    form, which has no such attribute. *)
Definition is_generic_alias (h : hint) : bool :=
  match h with
  | HAlias _ _ | HAnnotated _ _ => true
  | _ => false
  end.

(** [hasattr(field_type, "__metadata__")] *)
Definition is_annotated_type (h : hint) : bool :=
  match h with
  | HAnnotated _ _ => true
  | _ => false
  end.

(** [get_origin(field_type) == cls]; the origin of an [Annotated] form is
    [Annotated] itself. *)
Definition origin_is (h : hint) (name : string) : bool :=
  match h with
  | HAlias (Some c) _ => String.eqb (cls_name c) name
  | _ => false
  end.

Definition alias_args (h : hint) : list pyobj :=
  match h with
  | HAlias _ args => args
  | _ => []
  end.

(** [field_type == GenericManager[Any]] *)
Definition is_GenericManager_Any (h : hint) : bool :=
  match h with
  | HAlias (Some c) [OAny] => String.eqb (cls_name c) "GenericManager"
  | _ => false
  end.

(** [FieldLookup] called with [metadata[0]] and the entries of
    [metadata[1]] as keyword arguments: the keys [field] and
    [default_key] of the dictionary bind the parameters of the same name.
    [FieldLookup] would store a [default_key] that is not a string as it is;
    the record keeps [default_key] as a string, and such a dictionary is
    refused here. *)
Definition lookup_of_options (c : pyclass) (d : dict string kwval) : result FieldLookup :=
  match dict_get d "field" with
  | Some _ => Raise (TypeError "__init__() got multiple values for argument 'field'")
  | None =>
      match dict_get d "default_key" with
      | None => Ok (mk_lookup c "default" d)
      | Some (KStr s) => Ok (mk_lookup c s (dict_del d "default_key"))
      | Some _ => Raise (TypeError "default_key")
      end
  end.

(** [cls.lookup_registry.get(field_type, None)]: only a class is a key,
    and two classes of one name are one key. *)
Definition registry_get (lookup_registry : dict string FieldLookup) (h : hint)
  : option FieldLookup :=
  match h with
  | HObj (OClass c) => dict_get lookup_registry (cls_name c)
  | _ => None
  end.

(** models.py: [FieldTypeRegistry.get_django_lookup] *)
Definition get_django_lookup (lookup_registry : dict string FieldLookup)
    (field_type : hint) : result (option FieldLookup) :=
  let field_type := fix_self_hint field_type in
  let field_type :=
    match field_type with
    | HObj (OClass c) =>
        if issubclass c "Model" then HRelated ManyToOne (OClass c) else field_type
    | HObj (OStr s) => HRelated ManyToOne (OStr s)
    | _ => field_type
    end in
  let generic := is_generic_alias field_type in
  let annotated := is_annotated_type field_type in
  if isinstance_related field_type "ManyToOne" then
    Ok (Some (mk_lookup models.ForeignKey "related_name"
                [("on_delete", KCascade);
                 ("to", KObj (fix_self (related_item field_type)))]))
  else if isinstance_related field_type "OneToOne" then
    Ok (Some (mk_lookup models.OneToOneField "related_name"
                [("to", KObj (fix_self (related_item field_type)));
                 ("on_delete", KCascade)]))
  else if generic && origin_is field_type "ManyToMany" then
    do related_model <- get_specialisation_name_or_type (alias_args field_type);
    Ok (Some (mk_lookup models.ManyToManyField "related_name"
                [("to", KObj (fix_self related_model))]))
  else if generic && origin_is field_type "OneToMany" then
    do related_model <- get_specialisation_name_or_type (alias_args field_type);
    Ok (Some (mk_lookup OneToManyFieldStandIn "related_name"
                [("to", KObj (fix_self related_model))]))
  else if is_GenericManager_Any field_type then
    Raise (NotImplementedError "GenericManager is not implemented")
  else
    do field_type <-
      (if generic && negb annotated then
         match field_type with
         | HAlias (Some origin) _ => Ok (HObj (OClass origin))
         | _ => Raise (ValueError "Could not determine origin")
         end
       else Ok field_type);
    if annotated then
      match field_type with
      | HAnnotated _ [MLookup lk] => Ok (Some lk)
      | HAnnotated _ [MClass c; MDict d] =>
          if issubclass c "Field"
          then do lk <- lookup_of_options c d; Ok (Some lk)
          else Raise (ValueError "Metadata is not valid")
      | _ => Raise (ValueError "Metadata is not valid")
      end
    else Ok (registry_get lookup_registry field_type).

(** ** models.py: [TypedModelBase.__new__] *)

(** Values of a class dictionary. *)
Inductive pyval : Type :=
  | VNone
  | VStr (s : string)
  | VField (f : field_object)              (* a field object; it is truthy *)
  | VOther (truthy : bool)                 (* any other object, with its truth value *)
  | VNullify                               (* the sentinel [_Nullify] *)
  | VMeta (attrs : dict string kwval).     (* [type("Meta", (type,), kwargs)] *)

(** [field.remote_field.model], as the name [register_field_object] keeps:
    the [__name__] of a class ([typing.Any] is a class, named "Any"), a
    string as it is.  A [to] of any other kind would be kept as the object
    it is, which a registry of string tuples cannot hold; the hints
    [get_django_lookup] builds never carry one, [fix_self] and
    [get_specialisation_name_or_type] having replaced [Self] and forward
    references by strings. *)
Definition remote_model (f : field_object) : result string :=
  match dict_get (fo_kwargs f) "to" with
  | Some (KObj (OClass c)) => Ok (cls_name c)
  | Some (KObj OAny) => Ok "Any"
  | Some (KObj (OStr s)) => Ok s
  | Some (KStr s) => Ok s
  | _ => Raise (TypeError "First parameter must be either a model or a model name")
  end.

(** [field.remote_field.related_name] *)
Definition remote_related_name (f : field_object) : option string :=
  match dict_get (fo_kwargs f) "related_name" with
  | Some (KStr s) => Some s
  | _ => None
  end.

(** foreign_key_typing.py: [ForeignRegistry.register_field_object] *)
Definition register_field_object (reg : registry) (model_name field_name : string)
    (f : field_object) : registry * result ForeignRegistry :=
  let c := fo_class f in
  let m :=
    if many_to_many c then Ok MANY_TO_MANY
    else if one_to_one c then Ok ONE_TO_ONE
    else if one_to_many c then Ok ONE_TO_MANY
    else if many_to_one c then Ok MANY_TO_ONE
    else Raise (ValueError "Unknown field mode") in
  match m with
  | Raise e => (reg, Raise e)
  | Ok m =>
      match remote_model f with
      | Raise e => (reg, Raise e)
      | Ok mB => init reg (ModeStr m) model_name mB field_name (remote_related_name f)
      end
  end.

(** What [__new__] works on: the class dictionary [dct] and the registry. *)
Record class_state : Type := {
  class_dict : dict string pyval;
  relations : registry
}.

(** Lines 263-277: what the value already assigned to the name decides. *)
Inductive attribute_plan : Type :=
  | Convert (default : option string)      (* build a field from the hint *)
  | RegisterManual (f : field_object)      (* a relation written by hand *)
  | Skip.                                  (* some other value: keep it *)

Definition plan_for (default_or_value : pyval) : attribute_plan :=
  match default_or_value with
  | VStr s => Convert (Some s)
  | VField f =>
      if issubclass (fo_class f) "ForeignObject" then RegisterManual f else Skip
  | VNone => Convert None
  | VOther truthy => if truthy then Skip else Convert None
  | VNullify => Skip
  | VMeta _ => Skip
  end.

(** [dct.get(variable, None)] *)
Definition dict_get_or_None (d : dict string pyval) (variable : string) : pyval :=
  match dict_get d variable with
  | Some v => v
  | None => VNone
  end.

Definition is_NoneType (h : hint) : bool :=
  match h with
  | HObj (OClass c) => String.eqb (cls_name c) "NoneType"
  | _ => false
  end.

(** Lines 279-292: [null] and the hint left once a union is opened. *)
Definition strip_union (field_type : hint) : result (bool * hint) :=
  match field_type with
  | HUnion field_args =>
      let null := existsb is_NoneType field_args in
      let non_null := List.filter (fun x => negb (is_NoneType x)) field_args in
      match non_null with
      | [t] => Ok (null, t)
      | _ => Raise (ValueError "Cannot determine field type, nothing other than None in Union")
      end
  | _ => Ok (false, field_type)
  end.

(** [isinstance(field_object, OneToManyFieldStandIn | models.ForeignKey |
    models.ManyToManyField | models.OneToOneField)] *)
Definition is_relation_field (f : field_object) : bool :=
  let c := fo_class f in
  issubclass c "OneToManyFieldStandIn" || issubclass c "ForeignKey"
  || issubclass c "ManyToManyField" || issubclass c "OneToOneField".

(** Lines 301-328.  [field_object is OneToManyFieldStandIn] compares an
    instance with the class and never holds. *)
Definition install_field (name variable : string) (fobj : field_object)
    (st : class_state) : class_state * result unit :=
  if is_relation_field fobj then
    match register_field_object (relations st) name variable fobj with
    | (reg', Raise e) =>
        ({| class_dict := class_dict st; relations := reg' |}, Raise e)
    | (reg', Ok registered) =>
        let c := fo_class fobj in
        let nullify :=
          (issubclass c "ManyToManyField" || issubclass c "OneToOneField")
          && reverse_created registered in
        let value := if nullify then VNullify else VField fobj in
        let d := dict_set (class_dict st) variable value in
        let d := if nullify then dict_del d variable else d in
        ({| class_dict := d; relations := reg' |}, Ok tt)
    end
  else
    ({| class_dict := dict_set (class_dict st) variable (VField fobj);
        relations := relations st |}, Ok tt).

(** Lines 279-328, once the value in the dictionary has let the hint
    through. *)
Definition convert_attribute (lookup_registry : dict string FieldLookup)
    (name variable : string) (field_type : hint) (default : option string)
    (st : class_state) : class_state * result unit :=
  match strip_union field_type with
  | Raise e => (st, Raise e)
  | Ok (null, field_type) =>
      match get_django_lookup lookup_registry field_type with
      | Raise e => (st, Raise e)
      | Ok None =>
          (st, Raise (ValueError "there is no default django field for that type"))
      | Ok (Some field_instance) =>
          match item field_instance default null false with
          | Raise e => (st, Raise e)
          | Ok field_object => install_field name variable field_object st
          end
      end
  end.

(** The body of the loop over the annotations. *)
Definition process_attribute (lookup_registry : dict string FieldLookup)
    (name : string) (st : class_state) (annotation : string * hint)
  : class_state * result unit :=
  let '(variable, field_type) := annotation in
  if negb (is_snake_case variable) then (st, Ok tt)
  else
    match plan_for (dict_get_or_None (class_dict st) variable) with
    | Skip => (st, Ok tt)
    | RegisterManual f =>
        match register_field_object (relations st) name variable f with
        | (reg', Raise e) =>
            ({| class_dict := class_dict st; relations := reg' |}, Raise e)
        | (reg', Ok _) =>
            ({| class_dict := class_dict st; relations := reg' |}, Ok tt)
        end
    | Convert default =>
        convert_attribute lookup_registry name variable field_type default st
    end.

Fixpoint process_annotations (lookup_registry : dict string FieldLookup)
    (name : string) (annotations : list (string * hint)) (st : class_state)
  : class_state * result unit :=
  match annotations with
  | [] => (st, Ok tt)
  | annotation :: rest =>
      match process_attribute lookup_registry name st annotation with
      | (st', Ok _) => process_annotations lookup_registry name rest st'
      | (st', Raise e) => (st', Raise e)
      end
  end.

(** [TypedModelBase.__new__], up to the call of [ModelBase.__new__]:
    [annotations] is what [get_type_hints_from_class_dict(dct)] returns, in
    order; the result holds the dictionary handed on to Django. *)
Definition TypedModelBase_new (lookup_registry : dict string FieldLookup)
    (name : string) (annotations : list (string * hint))
    (kwargs : dict string kwval) (st : class_state) : class_state * result unit :=
  match process_annotations lookup_registry name annotations st with
  | (st', Raise e) => (st', Raise e)
  | (st', Ok _) =>
      match kwargs with
      | [] => (st', Ok tt)
      | _ :: _ =>
          ({| class_dict := dict_set (class_dict st') "Meta" (VMeta kwargs);
              relations := relations st' |}, Ok tt)
      end
  end.

(** ** Outcomes and invariants of the registry *)

(** The ways [__init__] can end, with the registry each leaves. *)
Inductive init_outcome (reg : registry) (m : mode_arg) (mA mB fA : string)
    (fB : option string) : registry -> result ForeignRegistry -> Prop :=
  | init_bad_mode e :
      new_record m mA mB fA fB = Raise e ->
      init_outcome reg m mA mB fA fB reg (Raise e)
  | init_no_key self e :
      new_record m mA mB fA fB = Ok self -> get_key self = Raise e ->
      init_outcome reg m mA mB fA fB reg (Raise e)
  | init_no_flip self k e :
      new_record m mA mB fA fB = Ok self -> get_key self = Ok k ->
      get_reverse_key self = Raise e ->
      init_outcome reg m mA mB fA fB (dict_set reg k self) (Raise e)
  | init_unmatched self k rt rk :
      new_record m mA mB fA fB = Ok self -> get_key self = Ok k ->
      get_reverse_key self = Ok rt -> as_key rt = Some rk ->
      rk <> k -> dict_get reg rk = None ->
      init_outcome reg m mA mB fA fB (dict_set reg k self) (Ok self)
  | init_own_reverse self k rt :
      new_record m mA mB fA fB = Ok self -> get_key self = Ok k ->
      get_reverse_key self = Ok rt -> as_key rt = Some k ->
      init_outcome reg m mA mB fA fB
        (dict_set reg k (set_reverse_created self))
        (Raise (ValueError
           "Multiple possible reverse relationships registered for relationship"))
  | init_second_reverse self k rt rk rv e :
      new_record m mA mB fA fB = Ok self -> get_key self = Ok k ->
      get_reverse_key self = Ok rt -> as_key rt = Some rk ->
      rk <> k -> dict_get reg rk = Some rv -> reverse_created rv = true ->
      match get_key rv with
      | Raise e' => e = e'
      | Ok _ => e = ValueError
           "Multiple possible reverse relationships registered for relationship"
      end ->
      init_outcome reg m mA mB fA fB
        (dict_set reg k (set_reverse_created self)) (Raise e)
  | init_matched self k rt rk rv :
      new_record m mA mB fA fB = Ok self -> get_key self = Ok k ->
      get_reverse_key self = Ok rt -> as_key rt = Some rk ->
      rk <> k -> dict_get reg rk = Some rv -> reverse_created rv = false ->
      init_outcome reg m mA mB fA fB
        (dict_set (dict_set reg k (set_reverse_created self)) rk
           (set_reverse_created rv))
        (Ok (set_reverse_created self)).

(** Every record sits under its own key. *)
Definition registry_keyed (reg : registry) : Prop :=
  forall k r, dict_get reg k = Some r -> get_key r = Ok k.

(** A record whose reverse key is its own key is marked resolved. *)
Definition own_reverse_resolved (reg : registry) : Prop :=
  forall k r rt,
    dict_get reg k = Some r -> get_reverse_key r = Ok rt -> as_key rt = Some k ->
    reverse_created r = true.

Definition registry_modes_valid (reg : registry) : Prop :=
  forall r, In r (dict_values reg) -> valid_mode (mode r).

(** The number of warnings the check owes: one for each unresolved record
    pointing at each installed typed model. *)
Definition expected_warnings (reg : registry) (all_models : list (list installed_model))
  : nat :=
  list_sum (map (fun model =>
                   if is_typed_model model
                   then length (check_model_valid reg (model_name model))
                   else 0)
                (concat all_models)).

(** The reverse key as a function of the key: what [get_reverse_key]
    returns for a record stored under [k]. *)
Definition reverse_of_key (k : key) : option key :=
  let '(m, a, b, fa, fb) := k in
  match flip_mode m with
  | Ok m' => Some (m', b, a, fb, fa)
  | Raise _ => None
  end.

(** The reverse key of [k] holds a record. *)
Definition reverse_registered (reg : registry) (k : key) : Prop :=
  exists rk rv, reverse_of_key k = Some rk /\ dict_get reg rk = Some rv.

(** A record is marked [reverse_created] exactly when its reverse key is
    registered. *)
Definition resolved_iff_reverse_registered (reg : registry) : Prop :=
  forall k r,
    dict_get reg k = Some r ->
    (reverse_created r = true <-> reverse_registered reg k).

(** ** Sample classes and registries *)

Definition book_author (reg : registry) : registry * result ForeignRegistry :=
  init reg (ModeStr "ManyToOne") "Book" "Author" "author" (Some "books").

Definition author_books (reg : registry) : registry * result ForeignRegistry :=
  init reg (ModeStr "OneToMany") "Author" "Book" "books" (Some "author").

(** Both sides of one relationship, declared once each. *)
Definition paired_registry : registry := fst (author_books (fst (book_author []))).

Definition book_registry : registry := fst (book_author []).

Definition installed : list (list installed_model) :=
  [[ {| model_name := "Author"; app_label := "library"; is_typed_model := true |};
     {| model_name := "Book"; app_label := "library"; is_typed_model := true |} ];
   [ {| model_name := "User"; app_label := "auth"; is_typed_model := false |} ]].

Definition Author : pyclass := plain_class "Author" ["Model"; "object"].
Definition py_int : pyclass := plain_class "int" ["object"].
Definition py_str : pyclass := plain_class "str" ["object"].
Definition py_complex : pyclass := plain_class "complex" ["object"].

Definition book_class_state : class_state :=
  {| class_dict := [("author", VStr "books")]; relations := [] |}.

Definition tag_class_state : class_state :=
  {| class_dict := [];
     relations :=
       fst (init [] (ModeStr "ManyToMany") "Tag" "Book" "books" (Some "tags")) |}.

Definition tags_field : field_object :=
  {| fo_class := models.ManyToManyField;
     fo_kwargs := [("to", KObj (OStr "Tag")); ("related_name", KStr "books")] |}.

Definition py_list : pyclass := plain_class "list" ["object"].

(** * Properties of the registry *)

Section DictFacts.
Context {K V : Type} `{EqDecision K}.
Implicit Types d : dict K V.

Lemma dict_get_set_eq d k v : dict_get (dict_set d k v) k = Some v.
Proof.
  induction d as [|[k' v'] d IH]; simpl.
  - by rewrite decide_True.
  - destruct (decide (k = k')) as [->|Hne]; simpl.
    + by rewrite decide_True.
    + by rewrite decide_False.
Qed.

Lemma dict_get_set_ne d k k' v :
  k <> k' -> dict_get (dict_set d k v) k' = dict_get d k'.
Proof.
  intros Hne. induction d as [|[k0 v0] d IH]; simpl.
  - rewrite decide_False; [done|congruence].
  - destruct (decide (k = k0)) as [->|Hne0]; simpl.
    + rewrite !decide_False; [done|congruence|congruence].
    + destruct (decide (k' = k0)); [done|apply IH].
Qed.

Lemma dict_get_set d k k' v :
  dict_get (dict_set d k v) k' = if decide (k = k') then Some v else dict_get d k'.
Proof.
  destruct (decide (k = k')) as [->|Hne].
  - apply dict_get_set_eq.
  - by apply dict_get_set_ne.
Qed.

Lemma dict_get_del_ne d k k' :
  k <> k' -> dict_get (dict_del d k) k' = dict_get d k'.
Proof.
  intros Hne. induction d as [|[k0 v0] d IH]; simpl; [done|].
  destruct (decide (k = k0)) as [->|Hne0]; simpl.
  - rewrite decide_False; [done|congruence].
  - destruct (decide (k' = k0)); [done|apply IH].
Qed.

Lemma dict_get_Some_values d k v : dict_get d k = Some v -> In v (dict_values d).
Proof.
  induction d as [|[k0 v0] d IH]; simpl; [done|].
  destruct (decide (k = k0)); [intros [= ->]; by left|right; auto].
Qed.

Lemma dict_set_set (d : dict K V) k v v' :
  dict_set (dict_set d k v) k v' = dict_set d k v'.
Proof.
  induction d as [|[k0 v0] d IH]; simpl.
  - by rewrite decide_True.
  - destruct (decide (k = k0)) as [->|Hne]; simpl.
    + by rewrite decide_True.
    + rewrite decide_False by done. by rewrite IH.
Qed.

End DictFacts.

Lemma flip_mode_Ok m m' : flip_mode m = Ok m' -> valid_mode m /\ valid_mode m'.
Proof.
  unfold flip_mode, valid_mode.
  destruct (String.eqb_spec m ONE_TO_ONE) as [->|_]; [intros [= <-]; auto|].
  destruct (String.eqb_spec m ONE_TO_MANY) as [->|_]; [intros [= <-]; auto|].
  destruct (String.eqb_spec m MANY_TO_ONE) as [->|_]; [intros [= <-]; auto|].
  destruct (String.eqb_spec m MANY_TO_MANY) as [->|_]; [intros [= <-]; auto 6|].
  discriminate.
Qed.

Lemma flip_mode_valid m :
  valid_mode m -> exists m', flip_mode m = Ok m' /\ flip_mode m' = Ok m.
Proof.
  intros [-> | [-> | [-> | ->]]]; eexists; split; reflexivity.
Qed.

Lemma default_fieldB_valid m mA :
  valid_mode m ->
  default_fieldB m mA None
  = Some (if String.eqb m ONE_TO_ONE then lower mA else lower mA ++ "_set").
Proof. intros [-> | [-> | [-> | ->]]]; reflexivity. Qed.

Lemma get_key_reverse_as_key self k rt :
  get_key self = Ok k -> get_reverse_key self = Ok rt -> exists rk, as_key rt = Some rk.
Proof.
  unfold get_key, get_reverse_key. destruct (fieldB self) as [fb|]; [|discriminate].
  intros _. destruct (flip_mode (mode self)); simpl; [|discriminate].
  intros [= <-]. simpl. eauto.
Qed.

Lemma init_sound reg m mA mB fA fB :
  init_outcome reg m mA mB fA fB (fst (init reg m mA mB fA fB))
    (snd (init reg m mA mB fA fB)).
Proof.
  unfold init.
  destruct (new_record m mA mB fA fB) as [self|e] eqn:Hnew; simpl;
    [|by apply init_bad_mode].
  destruct (get_key self) as [k|e] eqn:Hk; simpl; [|by eapply init_no_key].
  unfold check_for_reverse.
  destruct (get_reverse_key self) as [rt|e] eqn:Hr; simpl;
    [|by eapply init_no_flip].
  destruct (get_key_reverse_as_key _ _ _ Hk Hr) as [rk Hrk].
  unfold registry_find. rewrite Hrk.
  rewrite !dict_get_set, dict_set_set.
  destruct (decide (k = rk)) as [<-|Hne].
  - simpl.
    replace (get_key (set_reverse_created self)) with (Ok (A:=key) k)
      by (revert Hk; unfold get_key; simpl; by destruct (fieldB self)).
    simpl. by eapply init_own_reverse.
  - destruct (dict_get reg rk) as [rv|] eqn:Hrv; simpl.
    + destruct (reverse_created rv) eqn:Hf.
      * destruct (get_key rv) as [k'|e] eqn:Hkv; simpl;
          eapply init_second_reverse; eauto; by rewrite Hkv.
      * by eapply init_matched.
    + by eapply init_unmatched.
Qed.

Lemma init_outcome_eq reg m mA mB fA fB reg' out :
  init reg m mA mB fA fB = (reg', out) -> init_outcome reg m mA mB fA fB reg' out.
Proof.
  intros Heq. pose proof (init_sound reg m mA mB fA fB) as H.
  by rewrite Heq in H.
Qed.

Lemma get_key_set_reverse_created r : get_key (set_reverse_created r) = get_key r.
Proof. reflexivity. Qed.

Lemma get_reverse_key_set_reverse_created r :
  get_reverse_key (set_reverse_created r) = get_reverse_key r.
Proof. reflexivity. Qed.

Ltac dict_cases H :=
  repeat (rewrite dict_get_set in H;
          match type of H with
          | context [decide (?a = ?b)] =>
              destruct (decide (a = b)); [subst|]
          end).

Lemma init_outcome_keyed reg m mA mB fA fB reg' out :
  init_outcome reg m mA mB fA fB reg' out -> registry_keyed reg -> registry_keyed reg'.
Proof.
  intros Hout Hinv k0 r0 Hget.
  destruct Hout; try (by apply Hinv); dict_cases Hget;
    try (by apply Hinv); try (injection Hget as <-);
    rewrite ?get_key_set_reverse_created; auto.
Qed.

Lemma init_outcome_own_reverse reg m mA mB fA fB reg' out :
  init_outcome reg m mA mB fA fB reg' out ->
  own_reverse_resolved reg -> own_reverse_resolved reg'.
Proof.
  intros Hout Hinv k0 r0 rt0 Hget Hr0 Hk0.
  destruct Hout; try (by eapply Hinv); dict_cases Hget;
    try (by eapply Hinv); try (injection Hget as <-); try reflexivity;
    rewrite ?get_reverse_key_set_reverse_created in Hr0; congruence.
Qed.

Lemma reachable_keyed reg : reachable reg -> registry_keyed reg.
Proof.
  induction 1 as [|reg m mA mB fA fB _ IH]; [intros k r; discriminate|].
  eapply init_outcome_keyed; [apply init_sound|apply IH].
Qed.

Lemma reachable_own_reverse reg : reachable reg -> own_reverse_resolved reg.
Proof.
  induction 1 as [|reg m mA mB fA fB _ IH]; [intros k r rt; discriminate|].
  eapply init_outcome_own_reverse; [apply init_sound|apply IH].
Qed.

Lemma init_surjective_pairing reg m mA mB fA fB :
  init reg m mA mB fA fB
  = (fst (init reg m mA mB fA fB), snd (init reg m mA mB fA fB)).
Proof. by destruct (init reg m mA mB fA fB). Qed.

Lemma registry_find_as_key reg rt rk :
  as_key rt = Some rk -> registry_find reg rt = dict_get reg rk.
Proof. unfold registry_find. by intros ->. Qed.

Lemma registry_find_Some reg rt rv :
  registry_find reg rt = Some rv -> exists rk, as_key rt = Some rk /\ dict_get reg rk = Some rv.
Proof.
  unfold registry_find. destruct (as_key rt) as [rk|]; [eauto|discriminate].
Qed.

Lemma reverse_key_has_key self rt rk :
  get_reverse_key self = Ok rt -> as_key rt = Some rk -> exists k, get_key self = Ok k.
Proof.
  unfold get_reverse_key, get_key.
  destruct (flip_mode (mode self)); simpl; [|discriminate].
  intros [= <-]. simpl. destruct (fieldB self); [eauto|discriminate].
Qed.

Lemma same_key_same_reverse r1 r2 k :
  get_key r1 = Ok k -> get_key r2 = Ok k -> get_reverse_key r1 = get_reverse_key r2.
Proof.
  unfold get_key, get_reverse_key.
  destruct (fieldB r1), (fieldB r2); try discriminate.
  intros H1 H2. rewrite <- H2 in H1. injection H1 as E1 E2 E3 E4 E5.
  by rewrite E1, E2, E3, E4, E5.
Qed.

(** Identifies the record, the key and the reverse key of an outcome with
    the ones already in the context. *)
Ltac unify_facts :=
  repeat match goal with
         | H1 : ?x = ?a, H2 : ?x = ?b |- _ => rewrite H1 in H2; simplify_eq
         end.

(** Case analysis on how a call of [init] ended. *)
Ltac init_inv Heq :=
  apply init_outcome_eq in Heq; inversion Heq; subst; clear Heq; unify_facts.

(** C1. In every reachable registry, constructing a record whose reverse
    key holds a record that is already marked [reverse_created] raises a
    [ValueError]; hence a construction that returns found the record under
    its reverse key unresolved, and leaves it resolved: no record is matched
    by a second reverse. *)
Theorem init_rejects_resolved_reverse reg m mA mB fA fB self rt rv :
  reachable reg ->
  new_record m mA mB fA fB = Ok self ->
  get_reverse_key self = Ok rt ->
  registry_find reg rt = Some rv ->
  (reverse_created rv = true ->
   exists reg' msg, init reg m mA mB fA fB = (reg', Raise (ValueError msg)))
  /\ (forall reg' r, init reg m mA mB fA fB = (reg', Ok r) ->
      reverse_created rv = false
      /\ registry_find reg' rt = Some (set_reverse_created rv)).
Proof.
  intros Hreach Hnew Hr Hfind.
  destruct (registry_find_Some _ _ _ Hfind) as (rk & Hrk & Hrv).
  destruct (reverse_key_has_key _ _ _ Hr Hrk) as [k Hk].
  pose proof (reachable_keyed _ Hreach _ _ Hrv) as Hkv.
  split.
  - intros Hflag.
    destruct (init reg m mA mB fA fB) as [reg' out] eqn:Heq.
    init_inv Heq; eauto.
    match goal with H : match get_key rv with _ => _ end |- _ =>
      rewrite Hkv in H; subst end.
    eauto.
  - intros reg' r Heq. init_inv Heq.
    split; [done|].
    rewrite (registry_find_as_key _ _ _ Hrk). by rewrite dict_get_set_eq.
Qed.

Lemma paired_registry_reachable : reachable paired_registry.
Proof. repeat constructor. Qed.

Lemma init_rejects_resolved_reverse_witness :
  exists reg' msg, book_author paired_registry = (reg', Raise (ValueError msg)).
Proof.
  refine (proj1 (init_rejects_resolved_reverse paired_registry
    (ModeStr "ManyToOne") "Book" "Author" "author" (Some "books")
    _ _ _ paired_registry_reachable eq_refl eq_refl eq_refl) eq_refl).
Defined.

(** C2, as stated, fails: when the record under the reverse key is already
    resolved, no unresolved record is present under the reverse key, and the
    new record is nevertheless stored with [reverse_created] set (and the
    constructor raises).  Here [Book.author] is declared a second time after
    both sides were paired. *)
Lemma resolved_reverse_sets_reverse_created :
  let k := ("ManyToOne", "Book", "Author", "author", "books") in
  let rt := ("OneToMany", "Author", "Book", Some "books", "author") in
  (forall rv, registry_find paired_registry rt = Some rv -> reverse_created rv <> false)
  /\ exists reg' e stored,
       book_author paired_registry = (reg', Raise e)
       /\ dict_get reg' k = Some stored
       /\ get_reverse_key stored = Ok rt
       /\ reverse_created stored = true.
Proof.
  split.
  - intros rv. vm_compute. by intros [= <-].
  - do 3 eexists. vm_compute. repeat split.
Qed.

(** A record whose reverse key is its own key meets itself in the
    registry: the constructor raises although nothing was registered
    before. *)
Example own_reverse_raises_on_empty_registry :
  init [] (ModeStr "OneToOne") "Person" "Person" "spouse" (Some "spouse")
  = ([(("OneToOne", "Person", "Person", "spouse", "spouse"),
       {| mode := "OneToOne"; modelA := "Person"; modelB := "Person";
          fieldA := "spouse"; fieldB := Some "spouse"; reverse_created := true |})],
     Raise (ValueError
       "Multiple possible reverse relationships registered for relationship")).
Proof. reflexivity. Qed.

(** C2, amended. For a reachable registry and a record with a reverse key:
    if the reverse key holds an unresolved record, the constructor returns
    and both records end resolved; if the reverse key is free and is not the
    record's own key, the constructor returns the record unresolved; if the
    reverse key holds a resolved record, the constructor raises a
    [ValueError] and the record stays stored, marked resolved. *)
Theorem init_resolves_reverse reg m mA mB fA fB self k rt rk :
  reachable reg ->
  new_record m mA mB fA fB = Ok self ->
  get_key self = Ok k ->
  get_reverse_key self = Ok rt ->
  as_key rt = Some rk ->
  (forall rv, dict_get reg rk = Some rv -> reverse_created rv = false ->
     exists reg', init reg m mA mB fA fB = (reg', Ok (set_reverse_created self))
       /\ dict_get reg' k = Some (set_reverse_created self)
       /\ dict_get reg' rk = Some (set_reverse_created rv))
  /\ (dict_get reg rk = None -> rk <> k ->
     exists reg', init reg m mA mB fA fB = (reg', Ok self)
       /\ reverse_created self = false
       /\ dict_get reg' k = Some self)
  /\ (forall rv, dict_get reg rk = Some rv -> reverse_created rv = true ->
     exists reg' msg, init reg m mA mB fA fB = (reg', Raise (ValueError msg))
       /\ dict_get reg' k = Some (set_reverse_created self)).
Proof.
  intros Hreach Hnew Hk Hr Hrk.
  assert (Hfalse : reverse_created self = false).
  { revert Hnew. unfold new_record. destruct (resolve_mode m); simpl; [|done].
    by intros [= <-]. }
  split; [|split].
  - intros rv Hrv Hflag.
    destruct (init reg m mA mB fA fB) as [reg' out] eqn:Heq.
    init_inv Heq; try congruence.
    + exfalso.
      match goal with
      | Hs : get_key ?s = Ok ?kk, Ht : get_reverse_key ?s = Ok ?t,
        Hv : dict_get reg ?kk = Some rv, Ha : as_key ?t = Some ?kk |- _ =>
          pose proof (reachable_keyed _ Hreach _ _ Hv) as Hkv;
          pose proof (same_key_same_reverse _ _ _ Hkv Hs) as Hrr;
          rewrite Ht in Hrr;
          rewrite (reachable_own_reverse _ Hreach _ _ _ Hv Hrr Ha) in Hflag
      end.
      discriminate.
    + eexists. split; [done|]. split.
      * rewrite dict_get_set_ne by done. apply dict_get_set_eq.
      * apply dict_get_set_eq.
  - intros Hnone Hne.
    destruct (init reg m mA mB fA fB) as [reg' out] eqn:Heq.
    init_inv Heq; try congruence.
    eexists. split; [done|]. split; [done|]. apply dict_get_set_eq.
  - intros rv Hrv Hflag.
    pose proof (reachable_keyed _ Hreach _ _ Hrv) as Hkv.
    destruct (init reg m mA mB fA fB) as [reg' out] eqn:Heq.
    init_inv Heq; try congruence.
    + do 2 eexists. split; [done|]. apply dict_get_set_eq.
    + match goal with H : match get_key rv with _ => _ end |- _ =>
        rewrite Hkv in H; subst end.
      do 2 eexists. split; [done|]. apply dict_get_set_eq.
Qed.

Lemma book_registry_reachable : reachable book_registry.
Proof. repeat constructor. Qed.

Lemma init_resolves_reverse_witness :
  exists reg',
    author_books book_registry
    = (reg', Ok {| mode := "OneToMany"; modelA := "Author"; modelB := "Book";
                   fieldA := "books"; fieldB := Some "author";
                   reverse_created := true |})
    /\ dict_get reg' ("OneToMany", "Author", "Book", "books", "author")
       = Some {| mode := "OneToMany"; modelA := "Author"; modelB := "Book";
                 fieldA := "books"; fieldB := Some "author";
                 reverse_created := true |}
    /\ dict_get reg' ("ManyToOne", "Book", "Author", "author", "books")
       = Some {| mode := "ManyToOne"; modelA := "Book"; modelB := "Author";
                 fieldA := "author"; fieldB := Some "books";
                 reverse_created := true |}.
Proof.
  refine (proj1 (init_resolves_reverse book_registry
    (ModeStr "OneToMany") "Author" "Book" "books" (Some "author")
    _ _ _ _ book_registry_reachable eq_refl eq_refl eq_refl eq_refl)
    {| mode := "ManyToOne"; modelA := "Book"; modelB := "Author";
       fieldA := "author"; fieldB := Some "books"; reverse_created := false |}
    eq_refl eq_refl).
Defined.

(** C6. Every record of a reachable registry is stored under the tuple its
    own [get_key] returns, and a construction that returns leaves the new
    record under its key (mode, modelA, modelB, fieldA, fieldB). *)
Theorem registry_keyed_by_get_key reg :
  reachable reg ->
  (forall k r, dict_get reg k = Some r -> get_key r = Ok k)
  /\ (forall m mA mB fA fB reg' r,
        init reg m mA mB fA fB = (reg', Ok r) ->
        exists fb, fieldB r = Some fb
          /\ get_key r = Ok (mode r, modelA r, modelB r, fieldA r, fb)
          /\ dict_get reg' (mode r, modelA r, modelB r, fieldA r, fb) = Some r
          /\ modelA r = mA /\ modelB r = mB /\ fieldA r = fA
          /\ forall k' r', dict_get reg' k' = Some r' -> get_key r' = Ok k').
Proof.
  intros Hreach. split; [by apply reachable_keyed|].
  intros m mA mB fA fB reg' r Heq.
  assert (Hkeyed : registry_keyed reg').
  { replace reg' with (fst (init reg m mA mB fA fB)) by (by rewrite Heq).
    apply reachable_keyed. by constructor. }
  assert (Hargs : forall s, new_record m mA mB fA fB = Ok s ->
            modelA s = mA /\ modelB s = mB /\ fieldA s = fA).
  { unfold new_record. destruct (resolve_mode m); simpl; [|done].
    by intros s [= <-]. }
  assert (Hstored : exists k, dict_get reg' k = Some r
            /\ modelA r = mA /\ modelB r = mB /\ fieldA r = fA).
  { init_inv Heq.
    - eexists. split; [apply dict_get_set_eq|]. by apply Hargs.
    - eexists. split; [rewrite dict_get_set_ne by done; apply dict_get_set_eq|].
      simpl. by apply Hargs. }
  destruct Hstored as (k & Hget & HA & HB & HfA).
  pose proof (Hkeyed _ _ Hget) as Hk.
  unfold get_key in Hk |- *. destruct (fieldB r) as [fb|]; [|discriminate].
  injection Hk as <-. exists fb. repeat split; auto.
Qed.

Lemma registry_keyed_by_get_key_witness :
  get_key {| mode := "ManyToOne"; modelA := "Book"; modelB := "Author";
             fieldA := "author"; fieldB := Some "books";
             reverse_created := true |}
  = Ok ("ManyToOne", "Book", "Author", "author", "books").
Proof.
  refine (proj1 (registry_keyed_by_get_key paired_registry
    paired_registry_reachable)
    ("ManyToOne", "Book", "Author", "author", "books") _ eq_refl).
Defined.

(** C7. For each of the four modes, flipping twice gives the mode back
    (OneToOne and ManyToMany flip to themselves, OneToMany and ManyToOne to
    each other); so the reverse key of a record stored under the reverse key
    of [r] is the key of [r]. *)
Theorem reverse_key_involution m :
  valid_mode m ->
  exists m',
    flip_mode m = Ok m' /\ flip_mode m' = Ok m
    /\ In (m, m') [(ONE_TO_ONE, ONE_TO_ONE); (MANY_TO_MANY, MANY_TO_MANY);
                   (ONE_TO_MANY, MANY_TO_ONE); (MANY_TO_ONE, ONE_TO_MANY)]
    /\ forall a b fa fb r,
         get_key r = Ok (m, a, b, fa, fb) ->
         get_reverse_key r = Ok (m', b, a, Some fb, fa)
         /\ as_key (m', b, a, Some fb, fa) = Some (m', b, a, fb, fa)
         /\ forall r', get_key r' = Ok (m', b, a, fb, fa) ->
              get_reverse_key r' = Ok (m, a, b, Some fa, fb)
              /\ as_key (m, a, b, Some fa, fb) = Some (m, a, b, fa, fb).
Proof.
  intros Hm.
  assert (Hrev : forall x x' a b fa fb r, flip_mode x = Ok x' ->
            get_key r = Ok (x, a, b, fa, fb) ->
            get_reverse_key r = Ok (x', b, a, Some fb, fa)).
  { intros x x' a b fa fb r Hx. unfold get_key, get_reverse_key.
    destruct (fieldB r); [|discriminate]. intros [= -> -> -> -> ->].
    by rewrite Hx. }
  destruct (flip_mode_valid m Hm) as (m' & H1 & H2).
  exists m'. repeat split; auto.
  - destruct Hm as [-> | [-> | [-> | ->]]]; injection H1 as <-; simpl; auto.
  - eapply Hrev; eauto.
  - eapply Hrev; eauto.
Qed.

Lemma reverse_key_involution_witness :
  exists m',
    flip_mode "OneToMany" = Ok m' /\ flip_mode m' = Ok "OneToMany"
    /\ In ("OneToMany", m')
         [(ONE_TO_ONE, ONE_TO_ONE); (MANY_TO_MANY, MANY_TO_MANY);
          (ONE_TO_MANY, MANY_TO_ONE); (MANY_TO_ONE, ONE_TO_MANY)]
    /\ forall a b fa fb r,
         get_key r = Ok ("OneToMany", a, b, fa, fb) ->
         get_reverse_key r = Ok (m', b, a, Some fb, fa)
         /\ as_key (m', b, a, Some fb, fa) = Some (m', b, a, fb, fa)
         /\ forall r', get_key r' = Ok (m', b, a, fb, fa) ->
              get_reverse_key r' = Ok ("OneToMany", a, b, Some fa, fb)
              /\ as_key ("OneToMany", a, b, Some fa, fb)
                 = Some ("OneToMany", a, b, fa, fb).
Proof.
  apply (reverse_key_involution "OneToMany"). right. left. reflexivity.
Defined.

Lemma init_outcome_stored reg m mA mB fA fB reg' out self k :
  init_outcome reg m mA mB fA fB reg' out ->
  new_record m mA mB fA fB = Ok self -> get_key self = Ok k ->
  exists stored, dict_get reg' k = Some stored
    /\ fieldB stored = fieldB self
    /\ forall r, out = Ok r -> fieldB r = fieldB self.
Proof.
  intros Hout Hnew Hk.
  destruct Hout; unify_facts;
    try (eexists; split; [apply dict_get_set_eq|]; split; [done|];
         by intros r [= <-]).
  eexists. split; [rewrite dict_get_set_ne by done; apply dict_get_set_eq|].
  split; [done|]. by intros r [= <-].
Qed.

(** C8. When [fieldB] is [None] and the mode is one of the four, the record
    is stored with a default [fieldB]: the lowercased [modelA] for OneToOne,
    the lowercased [modelA] followed by "_set" for the other three; the
    stored [fieldB] is not [None]. *)
Theorem init_fills_default_fieldB reg m s mA mB fA :
  resolve_mode m = Ok s ->
  valid_mode s ->
  exists fb reg' out stored,
    ((s = ONE_TO_ONE /\ fb = lower mA)
     \/ (In s [ONE_TO_MANY; MANY_TO_ONE; MANY_TO_MANY] /\ fb = lower mA ++ "_set"))
    /\ init reg m mA mB fA None = (reg', out)
    /\ dict_get reg' (s, mA, mB, fA, fb) = Some stored
    /\ fieldB stored = Some fb
    /\ forall r, out = Ok r -> fieldB r = Some fb.
Proof.
  intros Hs Hv.
  set (fb := if String.eqb s ONE_TO_ONE then lower mA else lower mA ++ "_set").
  set (self := {| mode := s; modelA := mA; modelB := mB; fieldA := fA;
                  fieldB := Some fb; reverse_created := false |}).
  assert (Hnew : new_record m mA mB fA None = Ok self).
  { unfold new_record. rewrite Hs. unfold bind.
    by rewrite default_fieldB_valid. }
  assert (Hk : get_key self = Ok (s, mA, mB, fA, fb)) by done.
  destruct (init reg m mA mB fA None) as [reg' out] eqn:Heq.
  apply init_outcome_eq in Heq.
  destruct (init_outcome_stored _ _ _ _ _ _ _ _ _ _ Heq Hnew Hk)
    as (stored & Hget & Hfb & Hout).
  exists fb, reg', out, stored. repeat split; auto.
  subst fb. destruct Hv as [-> | [-> | [-> | ->]]]; simpl; auto 6.
Qed.

Lemma init_fills_default_fieldB_witness :
  exists fb reg' out stored,
    (("OneToOne" = ONE_TO_ONE /\ fb = lower "Passport")
     \/ (In "OneToOne" [ONE_TO_MANY; MANY_TO_ONE; MANY_TO_MANY]
         /\ fb = lower "Passport" ++ "_set"))
    /\ init [] (ModeRelated (plain_class "OneToOne" ["RelatedBase"; "object"]))
         "Passport" "Person" "owner" None = (reg', out)
    /\ dict_get reg' ("OneToOne", "Passport", "Person", "owner", fb) = Some stored
    /\ fieldB stored = Some fb
    /\ forall r, out = Ok r -> fieldB r = Some fb.
Proof.
  apply (init_fills_default_fieldB []
    (ModeRelated (plain_class "OneToOne" ["RelatedBase"; "object"]))
    "OneToOne" "Passport" "Person" "owner").
  - reflexivity.
  - left. reflexivity.
Defined.

(** ** The readiness check *)

Lemma mapM_total {A B : Type} (f : A -> result B) (l : list A) :
  (forall a, In a l -> exists b, f a = Ok b) ->
  exists bs, mapM f l = Ok bs /\ Forall2 (fun a b => f a = Ok b) l bs.
Proof.
  induction l as [|a l IH]; simpl; intros Hf; [by exists []|].
  destruct (Hf a) as [b Hb]; [by left|].
  destruct IH as (bs & Hbs & Hall); [intros; apply Hf; by right|].
  exists (b :: bs). rewrite Hb, Hbs. simpl. split; [done|by constructor].
Qed.

Lemma check_model_valid_In reg model r :
  In r (check_model_valid reg model)
  <-> In r (dict_values reg) /\ modelB r = model /\ reverse_created r = false.
Proof.
  unfold check_model_valid.
  rewrite <- !list_elem_of_In, list_elem_of_filter. tauto.
Qed.

Lemma warnings_for_model_total reg model :
  registry_modes_valid reg ->
  exists ws, warnings_for_model reg model = Ok ws
    /\ length ws = (if is_typed_model model
                    then length (check_model_valid reg (model_name model)) else 0)
    /\ Forall (fun w => cm_id w = "freeform.W001") ws.
Proof.
  intros Hvalid. unfold warnings_for_model.
  destruct (is_typed_model model); [|by exists []].
  destruct (mapM_total (warning_for model) (check_model_valid reg (model_name model)))
    as (ws & Hws & Hall).
  { intros ir Hin. apply check_model_valid_In in Hin as (Hin & _).
    unfold warning_for, reverse_mode.
    destruct (flip_mode_valid _ (Hvalid _ Hin)) as (rm & -> & _). simpl. eauto. }
  exists ws. split; [done|]. split.
  - symmetry. eapply Forall2_length, Hall.
  - clear Hws. induction Hall as [|ir w irs ws Hw _ IH]; constructor; [|done].
    unfold warning_for in Hw. destruct (reverse_mode ir); simpl in Hw; [|done].
    by injection Hw as <-.
Qed.

(** C4, as stated, fails: the constructor called with a mode string
    outside the four stores the record before it raises, and on the
    registry this leaves the readiness check raises a [ValueError] instead
    of returning warnings. *)
Lemma check_raises_after_invalid_mode :
  let reg :=
    fst (init [] (ModeStr "Foreign") "Book" "Author" "author" (Some "books")) in
  reachable reg
  /\ (exists r, check_model_valid reg "Author" = [r] /\ mode r = "Foreign")
  /\ exists msg, reverse_foreign_key_warning reg installed = Raise (ValueError msg).
Proof.
  split; [repeat constructor|]. split.
  - eexists. vm_compute. split; reflexivity.
  - eexists. vm_compute. reflexivity.
Qed.

(** C4, amended. [check_model_valid] returns exactly the records of the
    registry whose [modelB] is the given name and whose [reverse_created] is
    [False], in registry order; on a registry whose records all carry one of
    the four modes the check returns, without raising, one warning with id
    "freeform.W001" for each such record and each installed typed model. *)
Theorem reverse_foreign_key_warning_spec reg all_models :
  (forall model,
      sublist (check_model_valid reg model) (dict_values reg)
      /\ forall r, In r (check_model_valid reg model)
           <-> In r (dict_values reg) /\ modelB r = model
               /\ reverse_created r = false)
  /\ (registry_modes_valid reg ->
      exists ws,
        reverse_foreign_key_warning reg all_models = Ok ws
        /\ length ws = expected_warnings reg all_models
        /\ Forall (fun w => cm_id w = "freeform.W001") ws).
Proof.
  split.
  - intros model. split; [apply sublist_filter|]. intros r.
    apply check_model_valid_In.
  - intros Hvalid. unfold reverse_foreign_key_warning, expected_warnings.
    induction (concat all_models) as [|model l IH]; simpl; [by exists []|].
    destruct (warnings_for_model_total reg model Hvalid) as (ws & -> & Hlen & Hid).
    simpl. destruct IH as (wss & Hwss & Hlens & Hids).
    unfold bind in Hwss.
    destruct (mapM (warnings_for_model reg) l) as [per|]; [|discriminate].
    simpl. injection Hwss as <-.
    exists (ws ++ concat per)%list. split; [done|]. split.
    + rewrite length_app. by rewrite Hlen, Hlens.
    + by apply Forall_app.
Qed.

Lemma book_registry_modes_valid : registry_modes_valid book_registry.
Proof. intros r [<-|[]]. right. right. left. reflexivity. Qed.

Lemma reverse_foreign_key_warning_spec_witness :
  exists ws,
    reverse_foreign_key_warning book_registry installed = Ok ws
    /\ length ws = 1
    /\ Forall (fun w => cm_id w = "freeform.W001") ws.
Proof.
  exact (proj2 (reverse_foreign_key_warning_spec book_registry installed)
                book_registry_modes_valid).
Defined.

Lemma dict_values_set_In {K V : Type} `{EqDecision K} (d : dict K V) k v x :
  In x (dict_values (dict_set d k v)) -> x = v \/ In x (dict_values d).
Proof.
  induction d as [|[k0 v0] d IH]; simpl.
  - intros [<-|[]]. by left.
  - destruct (decide (k = k0)); simpl.
    + intros [<-|Hin]; [by left|right; by right].
    + intros [<-|Hin]; [right; by left|].
      destruct (IH Hin); [by left|right; by right].
Qed.

(** A construction that returns stores a record with a valid mode, and
    completes only records that were already there: registries built by
    constructions that return carry valid modes throughout. *)
Lemma init_Ok_modes_valid reg m mA mB fA fB reg' r :
  registry_modes_valid reg ->
  init reg m mA mB fA fB = (reg', Ok r) ->
  registry_modes_valid reg'.
Proof.
  intros Hvalid Heq x Hin.
  assert (Hflip : forall s rt, get_reverse_key s = Ok rt -> valid_mode (mode s)).
  { intros s rt. unfold get_reverse_key.
    destruct (flip_mode (mode s)) eqn:Hf; [|done]. intros _.
    by destruct (flip_mode_Ok _ _ Hf). }
  init_inv Heq.
  - apply dict_values_set_In in Hin as [->|Hin]; eauto.
  - apply dict_values_set_In in Hin as [->|Hin].
    + simpl.
      match goal with
      | H : dict_get reg _ = Some ?rv |- valid_mode (mode ?rv) =>
          apply Hvalid; eapply dict_get_Some_values; exact H
      end.
    + apply dict_values_set_In in Hin as [->|Hin]; eauto.
Qed.

(** * Properties of the lookup and of the metaclass *)

(** tests/test_project: the fields generated for [ExampleTypedModel] are
    those [OriginalModel] writes by hand. *)
Example test_equiv :
  let char_field kwargs :=
    VField {| fo_class := models.CharField;
              fo_kwargs := ("max_length", KInt 255) :: kwargs |} in
  TypedModelBase_new types_to_fields "ExampleTypedModel"
    [("char", HObj (OClass py_str));
     ("char_or_null", HUnion [HObj (OClass py_str); HObj (OClass NoneType)]);
     ("char_with_default", HObj (OClass py_str));
     ("number", HObj (OClass py_int))]
    []
    {| class_dict := [("char_with_default", VStr "hello")]; relations := [] |}
  = ({| class_dict :=
          [("char_with_default", char_field [("default", KStr "hello")]);
           ("char", char_field []);
           ("char_or_null", char_field [("null", KBool true)]);
           ("number", VField {| fo_class := models.IntegerField; fo_kwargs := [] |})];
        relations := [] |}, Ok tt).
Proof. reflexivity. Qed.

(** C5, as stated, fails: the lookup of [OneToOne[Self]] does not carry
    [Self] as its target but the string "self". *)
Lemma one_to_one_self_target :
  exists lk,
    get_django_lookup types_to_fields (HRelated OneToOne OSelf) = Ok (Some lk)
    /\ field lk = models.OneToOneField
    /\ dict_get (default_kwargs lk) "to" = Some (KObj (OStr "self"))
    /\ dict_get (default_kwargs lk) "to" <> Some (KObj OSelf).
Proof. eexists. vm_compute. repeat split. discriminate. Qed.

(** C5, amended. [OneToOne[M]] gives a [OneToOneField] lookup, [ManyToOne[M]],
    a bare model class and a bare string a [ForeignKey] lookup,
    [ManyToMany[M]] a [ManyToManyField] lookup and [OneToMany[M]] a
    [OneToManyFieldStandIn] lookup; the target is [fix_self] of the referenced
    model: [M] itself when it is a class or a string other than "Self", the
    string "self" when it is [Self] or "Self". *)
Theorem get_django_lookup_relationships lr :
  (forall M, get_django_lookup lr (HRelated OneToOne M)
     = Ok (Some (mk_lookup models.OneToOneField "related_name"
                   [("to", KObj (fix_self M)); ("on_delete", KCascade)])))
  /\ (forall M, get_django_lookup lr (HRelated ManyToOne M)
     = Ok (Some (mk_lookup models.ForeignKey "related_name"
                   [("on_delete", KCascade); ("to", KObj (fix_self M))])))
  /\ (forall c, issubclass c "Model" = true ->
        get_django_lookup lr (HObj (OClass c))
        = Ok (Some (mk_lookup models.ForeignKey "related_name"
                      [("on_delete", KCascade); ("to", KObj (OClass c))])))
  /\ (forall s, get_django_lookup lr (HObj (OStr s))
     = Ok (Some (mk_lookup models.ForeignKey "related_name"
                   [("on_delete", KCascade); ("to", KObj (fix_self (OStr s)))])))
  /\ (forall M, get_django_lookup lr (generic_alias ManyToMany M)
     = Ok (Some (mk_lookup models.ManyToManyField "related_name"
                   [("to", KObj (fix_self
                       (match M with OForwardRef s => OStr s | _ => M end)))])))
  /\ (forall M, get_django_lookup lr (generic_alias OneToMany M)
     = Ok (Some (mk_lookup OneToManyFieldStandIn "related_name"
                   [("to", KObj (fix_self
                       (match M with OForwardRef s => OStr s | _ => M end)))])))
  /\ (forall M, (exists c, M = OClass c) \/ (exists s, M = OStr s /\ s <> "Self") ->
        fix_self M = M)
  /\ fix_self OSelf = OStr "self" /\ fix_self (OStr "Self") = OStr "self".
Proof.
  repeat apply conj; try reflexivity.
  - intros c Hc. unfold get_django_lookup. simpl. rewrite Hc. reflexivity.
  - intros s. unfold get_django_lookup. simpl.
    destruct (String.eqb s "Self") eqn:E; simpl; rewrite ?E; reflexivity.
  - intros M. destruct M; reflexivity.
  - intros M. destruct M; reflexivity.
  - intros M [[c ->]|(s & -> & Hs)]; [done|]. simpl.
    by rewrite (proj2 (String.eqb_neq _ _) Hs).
Qed.

Lemma get_django_lookup_relationships_witness :
  get_django_lookup types_to_fields (HObj (OClass Author))
  = Ok (Some (mk_lookup models.ForeignKey "related_name"
                [("on_delete", KCascade); ("to", KObj (OClass Author))])).
Proof.
  exact (proj1 (proj2 (proj2 (get_django_lookup_relationships types_to_fields)))
           Author eq_refl).
Defined.











Lemma install_field_frame name variable fobj st st' out key :
  install_field name variable fobj st = (st', out) ->
  key <> variable ->
  dict_get (class_dict st') key = dict_get (class_dict st) key.
Proof.
  unfold install_field. intros Heq Hne.
  repeat case_match; simplify_eq; simpl; try done;
    rewrite ?dict_get_del_ne by done; rewrite ?dict_get_set_ne by done; done.
Qed.

(** A step of the loop writes no entry of the class dictionary but the one
    of its own attribute, and none at all for a name that is not snake
    case. *)
Lemma process_attribute_frame lr name st variable field_type st' out key :
  process_attribute lr name st (variable, field_type) = (st', out) ->
  key <> variable \/ is_snake_case variable = false ->
  dict_get (class_dict st') key = dict_get (class_dict st) key.
Proof.
  unfold process_attribute. intros Heq Hkey.
  destruct (is_snake_case variable) eqn:Hsnake; simpl in Heq; [|by simplify_eq].
  destruct Hkey as [Hne|]; [|done].
  unfold convert_attribute in Heq.
  repeat case_match; simplify_eq; simpl; try done.
  by eapply install_field_frame.
Qed.

Lemma process_annotations_frame lr name annotations st st' out key :
  process_annotations lr name annotations st = (st', out) ->
  is_snake_case key = false ->
  dict_get (class_dict st') key = dict_get (class_dict st) key.
Proof.
  revert st. induction annotations as [|[variable field_type] rest IH];
    intros st Heq Hkey; cbn [process_annotations] in Heq; [by simplify_eq|].
  destruct (process_attribute lr name st (variable, field_type))
    as [st1 [[]|e]] eqn:Hstep.
  - rewrite (IH _ Heq Hkey). eapply process_attribute_frame; [done|].
    destruct (decide (key = variable)) as [->|]; auto.
  - simplify_eq. eapply process_attribute_frame; [done|].
    destruct (decide (key = variable)) as [->|]; auto.
Qed.

Lemma is_snake_case_false variable c :
  has_char c variable -> islower c = false -> c <> "_"%char ->
  is_snake_case variable = false.
Proof.
  unfold is_snake_case. induction variable as [|c' s IH]; simpl; [done|].
  intros [->|Hin] Hlow Hne.
  - rewrite Hlow. simpl. by rewrite (proj2 (Ascii.eqb_neq _ _) Hne).
  - rewrite (IH Hin Hlow Hne). apply andb_false_r.
Qed.

Lemma upper_or_digit_not_snake c :
  isupper c = true \/ isdigit c = true -> islower c = false /\ c <> "_"%char.
Proof.
  destruct c as [[] [] [] [] [] [] [] []]; vm_compute;
    intros [H|H]; (discriminate H || (split; [reflexivity|discriminate])).
Qed.

(** C10, as stated, fails: with class keyword arguments, [__new__] replaces
    the entry of the annotated name "Meta", which is no snake-case name. *)
Lemma annotated_Meta_is_replaced :
  let st := {| class_dict := [("Meta", VOther true)]; relations := [] |} in
  is_snake_case "Meta" = false
  /\ exists st',
       TypedModelBase_new types_to_fields "Event" [("Meta", HObj (OClass py_int))]
         [("abstract", KBool true)] st = (st', Ok tt)
       /\ dict_get (class_dict st') "Meta" <> dict_get (class_dict st) "Meta".
Proof. split; [reflexivity|]. eexists. vm_compute. split; [reflexivity|discriminate]. Qed.

(** C10, amended. A name holding a character that is neither a lowercase
    letter nor an underscore (an uppercase letter and a digit are such
    characters) is not snake case; the loop step of such an attribute changes
    neither the class dictionary nor the registry, the whole loop leaves its
    entry as it was, and so does [__new__] unless the name is "Meta" and
    class keyword arguments are given. *)
Theorem non_snake_case_untouched lr name annotations kwargs st variable c :
  has_char c variable ->
  islower c = false ->
  c <> "_"%char ->
  is_snake_case variable = false
  /\ (forall field_type,
        process_attribute lr name st (variable, field_type) = (st, Ok tt))
  /\ (forall st' out,
        process_annotations lr name annotations st = (st', out) ->
        dict_get (class_dict st') variable = dict_get (class_dict st) variable)
  /\ (variable <> "Meta" \/ kwargs = [] ->
      forall st' out,
        TypedModelBase_new lr name annotations kwargs st = (st', out) ->
        dict_get (class_dict st') variable = dict_get (class_dict st) variable)
  /\ (forall c', isupper c' = true \/ isdigit c' = true ->
        islower c' = false /\ c' <> "_"%char).
Proof.
  intros Hin Hlow Hne.
  pose proof (is_snake_case_false _ _ Hin Hlow Hne) as Hsnake.
  repeat apply conj; auto.
  - intros field_type. unfold process_attribute. by rewrite Hsnake.
  - intros st' out Heq. by eapply process_annotations_frame.
  - intros Hmeta st' out. unfold TypedModelBase_new.
    destruct (process_annotations lr name annotations st) as [st1 [[]|e]] eqn:Hloop.
    + pose proof (process_annotations_frame _ _ _ _ _ _ _ Hloop Hsnake) as Hframe.
      destruct kwargs as [|kw kwargs]; intros [= <- <-]; simpl; [done|].
      destruct Hmeta as [Hmeta|]; [|done].
      rewrite dict_get_set_ne by done. done.
    + intros [= <- <-]. by eapply process_annotations_frame.
  - apply upper_or_digit_not_snake.
Qed.

Lemma non_snake_case_untouched_witness :
  is_snake_case "MAX_SIZE" = false
  /\ process_attribute types_to_fields "Event"
       {| class_dict := [("MAX_SIZE", VOther true)]; relations := [] |}
       ("MAX_SIZE", HObj (OClass py_int))
     = ({| class_dict := [("MAX_SIZE", VOther true)]; relations := [] |}, Ok tt).
Proof.
  pose proof (non_snake_case_untouched types_to_fields "Event" []
    [] {| class_dict := [("MAX_SIZE", VOther true)]; relations := [] |}
    "MAX_SIZE" "M"%char (or_introl eq_refl) eq_refl) as H.
  destruct H as (H1 & H2 & _); [discriminate|].
  split; [exact H1|apply H2].
Defined.

(** * Further properties of the registry *)

Lemma reverse_of_key_get_reverse_key r k :
  get_key r = Ok k ->
  match reverse_of_key k with
  | Some rk => exists rt, get_reverse_key r = Ok rt /\ as_key rt = Some rk
  | None => exists e, get_reverse_key r = Raise e
  end.
Proof.
  unfold get_key, get_reverse_key, reverse_of_key.
  destruct (fieldB r) as [fb|]; [|discriminate]. intros [= <-].
  destruct (flip_mode (mode r)); simpl; eauto.
Qed.

Lemma reverse_of_key_Some r k rt rk :
  get_key r = Ok k -> get_reverse_key r = Ok rt -> as_key rt = Some rk ->
  reverse_of_key k = Some rk.
Proof.
  intros Hk Hr Ha. pose proof (reverse_of_key_get_reverse_key _ _ Hk) as H.
  destruct (reverse_of_key k) as [rk'|].
  - destruct H as (rt' & Hr' & Ha'). congruence.
  - destruct H as [e He]. congruence.
Qed.

Lemma reverse_of_key_None r k e :
  get_key r = Ok k -> get_reverse_key r = Raise e -> reverse_of_key k = None.
Proof.
  intros Hk Hr. pose proof (reverse_of_key_get_reverse_key _ _ Hk) as H.
  destruct (reverse_of_key k) as [rk'|]; [|done].
  destruct H as (rt' & Hr' & _). congruence.
Qed.

Lemma reverse_of_key_involutive k rk :
  reverse_of_key k = Some rk -> reverse_of_key rk = Some k.
Proof.
  destruct k as [[[[m a] b] fa] fb]. unfold reverse_of_key.
  destruct (flip_mode m) as [m'|] eqn:Hf; [|discriminate].
  intros [= <-]. destruct (flip_mode_Ok _ _ Hf) as [Hm _].
  destruct (flip_mode_valid _ Hm) as (m2 & H1 & H2).
  rewrite Hf in H1. injection H1 as <-. by rewrite H2.
Qed.

Lemma reverse_of_key_inj k1 k2 rk :
  reverse_of_key k1 = Some rk -> reverse_of_key k2 = Some rk -> k1 = k2.
Proof.
  intros H1 H2. apply reverse_of_key_involutive in H1, H2. congruence.
Qed.

Lemma reverse_registered_set reg k x k0 :
  reverse_registered (dict_set reg k x) k0
  <-> reverse_of_key k0 = Some k \/ reverse_registered reg k0.
Proof.
  unfold reverse_registered. split.
  - intros (rk & rv & Hrk & Hget). rewrite dict_get_set in Hget.
    destruct (decide (k = rk)) as [->|]; [by left|right; eauto].
  - intros [Hk|(rk & rv & Hrk & Hget)].
    + exists k, x. split; [done|apply dict_get_set_eq].
    + exists rk. rewrite dict_get_set.
      destruct (decide (k = rk)); eauto.
Qed.

Lemma new_record_unresolved m mA mB fA fB self :
  new_record m mA mB fA fB = Ok self -> reverse_created self = false.
Proof.
  unfold new_record. destruct (resolve_mode m); simpl; [|done]. by intros [= <-].
Qed.

Lemma init_outcome_resolved reg m mA mB fA fB reg' out :
  init_outcome reg m mA mB fA fB reg' out ->
  registry_keyed reg ->
  resolved_iff_reverse_registered reg -> resolved_iff_reverse_registered reg'.
Proof.
  intros Hout Hkeyed Hinv k0 r0 Hget.
  destruct Hout as
    [ e Hnew | self e Hnew Hk | self k e Hnew Hk Hr
    | self k rt rk Hnew Hk Hr Ha Hne Hnone
    | self k rt Hnew Hk Hr Ha
    | self k rt rk rv e Hnew Hk Hr Ha Hne Hrv Hflag He
    | self k rt rk rv Hnew Hk Hr Ha Hne Hrv Hflag ];
    try (by apply Hinv).
  - (* the mode has no reverse *)
    pose proof (reverse_of_key_None _ _ _ Hk Hr) as Hrok.
    pose proof (new_record_unresolved _ _ _ _ _ _ Hnew) as Hfalse.
    rewrite reverse_registered_set. rewrite dict_get_set in Hget.
    destruct (decide (k = k0)) as [<-|Hk0].
    + injection Hget as <-. rewrite Hfalse. split; [done|].
      intros [H|(rk & rv & H & _)]; congruence.
    + rewrite (Hinv _ _ Hget). split; [auto|].
      intros [H|H]; [|done]. apply reverse_of_key_involutive in H. congruence.
  - (* no record under the reverse key *)
    pose proof (reverse_of_key_Some _ _ _ _ Hk Hr Ha) as Hrok.
    pose proof (new_record_unresolved _ _ _ _ _ _ Hnew) as Hfalse.
    rewrite reverse_registered_set. rewrite dict_get_set in Hget.
    destruct (decide (k = k0)) as [<-|Hk0].
    + injection Hget as <-. rewrite Hfalse. split; [done|].
      intros [H|(rk' & rv & H & Hget')]; congruence.
    + rewrite (Hinv _ _ Hget). split; [auto|].
      intros [H|H]; [|done]. apply reverse_of_key_involutive in H.
      congruence.
  - (* the record is its own reverse *)
    pose proof (reverse_of_key_Some _ _ _ _ Hk Hr Ha) as Hrok.
    rewrite reverse_registered_set. rewrite dict_get_set in Hget.
    destruct (decide (k = k0)) as [<-|Hk0].
    + injection Hget as <-. simpl. split; auto.
    + rewrite (Hinv _ _ Hget). split; [auto|].
      intros [H|H]; [|done]. apply reverse_of_key_involutive in H.
      congruence.
  - (* the reverse is already resolved *)
    pose proof (reverse_of_key_Some _ _ _ _ Hk Hr Ha) as Hrok.
    rewrite reverse_registered_set. rewrite dict_get_set in Hget.
    destruct (decide (k = k0)) as [<-|Hk0].
    + injection Hget as <-. simpl. split; [|done].
      intros _. right. by exists rk, rv.
    + rewrite (Hinv _ _ Hget). split; [auto|].
      intros [H|H]; [|done]. apply reverse_of_key_involutive in H.
      assert (k0 = rk) as -> by congruence.
      assert (r0 = rv) as -> by congruence.
      by apply (Hinv _ _ Hrv).
  - (* the reverse is resolved by this call *)
    pose proof (reverse_of_key_Some _ _ _ _ Hk Hr Ha) as Hrok.
    pose proof (reverse_of_key_involutive _ _ Hrok) as Hrok'.
    rewrite !reverse_registered_set. rewrite !dict_get_set in Hget.
    destruct (decide (rk = k0)) as [<-|Hrk0].
    + injection Hget as <-. simpl. split; [|done]. intros _. right. by left.
    + destruct (decide (k = k0)) as [<-|Hk0].
      * injection Hget as <-. simpl. split; [|done]. intros _. by left.
      * rewrite (Hinv _ _ Hget). split; [auto|].
        intros [H|[H|H]]; [| |done]; apply reverse_of_key_involutive in H;
          congruence.
Qed.

Lemma reachable_resolved reg : reachable reg -> resolved_iff_reverse_registered reg.
Proof.
  induction 1 as [|reg m mA mB fA fB Hreach IH]; [intros k r; discriminate|].
  eapply init_outcome_resolved;
    [apply init_sound|by apply reachable_keyed|apply IH].
Qed.

Lemma reverse_registered_find reg r k :
  get_key r = Ok k ->
  reverse_registered reg k
  <-> exists rt rv, get_reverse_key r = Ok rt /\ registry_find reg rt = Some rv.
Proof.
  intros Hk. pose proof (reverse_of_key_get_reverse_key _ _ Hk) as H.
  unfold reverse_registered, registry_find. split.
  - intros (rk & rv & Hrk & Hget). rewrite Hrk in H.
    destruct H as (rt & Hr & Ha). exists rt, rv. by rewrite Ha.
  - intros (rt & rv & Hr & Hfind).
    destruct (as_key rt) as [rk|] eqn:Ha; [|discriminate].
    exists rk, rv. split; [|done]. by eapply reverse_of_key_Some.
Qed.

(** X1. In every reachable registry a record is marked [reverse_created]
    exactly when a record is registered under its reverse key, and that
    record is then marked as well. *)
Theorem reverse_created_iff_reverse_registered reg k r :
  reachable reg ->
  dict_get reg k = Some r ->
  (reverse_created r = true
   <-> exists rt rv, get_reverse_key r = Ok rt /\ registry_find reg rt = Some rv)
  /\ (forall rt rv, get_reverse_key r = Ok rt -> registry_find reg rt = Some rv ->
      reverse_created rv = true).
Proof.
  intros Hreach Hget.
  pose proof (reachable_keyed _ Hreach) as Hkeyed.
  pose proof (reachable_resolved _ Hreach) as Hinv.
  pose proof (Hkeyed _ _ Hget) as Hk.
  split.
  - rewrite (Hinv _ _ Hget). by apply reverse_registered_find.
  - intros rt rv Hr Hfind.
    destruct (registry_find_Some _ _ _ Hfind) as (rk & Ha & Hrv).
    apply (Hinv _ _ Hrv). exists k, r. split; [|done].
    apply reverse_of_key_involutive. by eapply reverse_of_key_Some.
Qed.

Lemma reverse_created_iff_reverse_registered_witness :
  reverse_created
    {| mode := "ManyToOne"; modelA := "Book"; modelB := "Author";
       fieldA := "author"; fieldB := Some "books"; reverse_created := true |} = true
  <-> exists rt rv,
        get_reverse_key
          {| mode := "ManyToOne"; modelA := "Book"; modelB := "Author";
             fieldA := "author"; fieldB := Some "books"; reverse_created := true |}
        = Ok rt
        /\ registry_find paired_registry rt = Some rv.
Proof.
  exact (proj1 (reverse_created_iff_reverse_registered paired_registry
    ("ManyToOne", "Book", "Author", "author", "books") _
    paired_registry_reachable eq_refl)).
Defined.

(** X2. A call of the constructor, whether it returns or raises, removes
    no key of a reachable registry, keeps every record under its key, and
    never turns a resolved record back into an unresolved one. *)
Theorem init_keeps_records reg m mA mB fA fB k r :
  reachable reg ->
  dict_get reg k = Some r ->
  exists r',
    dict_get (fst (init reg m mA mB fA fB)) k = Some r'
    /\ get_key r' = Ok k
    /\ (reverse_created r = true -> reverse_created r' = true).
Proof.
  intros Hreach Hget.
  pose proof (reachable_keyed _ Hreach) as Hkeyed.
  pose proof (reachable_resolved _ Hreach _ _ Hget) as Hres.
  assert (Hkeyed' : registry_keyed (fst (init reg m mA mB fA fB)))
    by (apply reachable_keyed; by constructor).
  pose proof (init_sound reg m mA mB fA fB) as Hout.
  revert Hkeyed'. generalize dependent (fst (init reg m mA mB fA fB)).
  generalize (snd (init reg m mA mB fA fB)).
  intros out reg' Hout Hkeyed'.
  assert (Hgoal : exists r', dict_get reg' k = Some r'
            /\ (reverse_created r = true -> reverse_created r' = true)).
  { destruct Hout as
      [ e Hnew | self e Hnew Hk | self k1 e Hnew Hk Hr
      | self k1 rt rk Hnew Hk Hr Ha Hne Hnone
      | self k1 rt Hnew Hk Hr Ha
      | self k1 rt rk rv e Hnew Hk Hr Ha Hne Hrv Hflag He
      | self k1 rt rk rv Hnew Hk Hr Ha Hne Hrv Hflag ];
      eauto; rewrite ?dict_get_set.
    - destruct (decide (k1 = k)) as [->|]; [|eauto].
      eexists. split; [done|]. intros Htrue. apply Hres in Htrue.
      destruct Htrue as (rk & rv & Hrk & _).
      by rewrite (reverse_of_key_None _ _ _ Hk Hr) in Hrk.
    - destruct (decide (k1 = k)) as [->|]; [|eauto].
      eexists. split; [done|]. intros Htrue. apply Hres in Htrue.
      destruct Htrue as (rk' & rv & Hrk & Hget').
      rewrite (reverse_of_key_Some _ _ _ _ Hk Hr Ha) in Hrk. congruence.
    - destruct (decide (k1 = k)); eauto.
    - destruct (decide (k1 = k)); eauto.
    - destruct (decide (rk = k)) as [->|]; [eauto|].
      destruct (decide (k1 = k)); eauto. }
  destruct Hgoal as (r' & Hget' & Hflag). exists r'. eauto.
Qed.

Lemma init_keeps_records_witness :
  exists r',
    dict_get (fst (book_author paired_registry))
      ("OneToMany", "Author", "Book", "books", "author") = Some r'
    /\ get_key r' = Ok ("OneToMany", "Author", "Book", "books", "author")
    /\ (true = true -> reverse_created r' = true).
Proof.
  exact (init_keeps_records paired_registry (ModeStr "ManyToOne") "Book" "Author"
    "author" (Some "books") ("OneToMany", "Author", "Book", "books", "author")
    {| mode := "OneToMany"; modelA := "Author"; modelB := "Book";
       fieldA := "books"; fieldB := Some "author"; reverse_created := true |}
    paired_registry_reachable eq_refl).
Defined.

(** X3. Declaring a relationship whose reverse is not registered a second
    time is accepted silently: the constructor returns the same record and
    leaves the registry as the first call left it. *)
Theorem init_unmatched_twice reg m mA mB fA fB reg1 r :
  init reg m mA mB fA fB = (reg1, Ok r) ->
  reverse_created r = false ->
  init reg1 m mA mB fA fB = (reg1, Ok r).
Proof.
  intros Heq Hfalse. init_inv Heq; [|discriminate].
  match goal with
  | Hnew : new_record _ _ _ _ _ = Ok ?self, Hk : get_key ?self = Ok ?k,
    Hr : get_reverse_key ?self = Ok ?rt, Ha : as_key ?rt = Some ?rk,
    Hne : ?rk <> ?k, Hnone : dict_get reg ?rk = None |- _ =>
      unfold init, check_for_reverse, registry_find;
      rewrite Hnew, Hk, Hr, Ha, dict_set_set, dict_get_set_ne, Hnone by done
  end.
  done.
Qed.

Lemma init_unmatched_twice_witness :
  book_author book_registry
  = (book_registry,
     Ok {| mode := "ManyToOne"; modelA := "Book"; modelB := "Author";
           fieldA := "author"; fieldB := Some "books"; reverse_created := false |}).
Proof.
  exact (init_unmatched_twice [] (ModeStr "ManyToOne") "Book" "Author" "author"
    (Some "books") book_registry _ eq_refl eq_refl).
Defined.

(** X4. Declaring one side of a relationship and then the other resolves
    both, whichever side comes first: if the reverse key is free and differs
    from the key, the first constructor returns an unresolved record, the
    second returns a resolved one, and both records end resolved. *)
Theorem init_both_sides (reg : registry) m m' a b fa fb :
  flip_mode m = Ok m' ->
  (m', b, a, fb, fa) <> (m, a, b, fa, fb) ->
  dict_get reg (m', b, a, fb, fa) = None ->
  exists reg1 reg2 r1 r2,
    init reg (ModeStr m) a b fa (Some fb) = (reg1, Ok r1)
    /\ reverse_created r1 = false
    /\ init reg1 (ModeStr m') b a fb (Some fa) = (reg2, Ok r2)
    /\ reverse_created r2 = true
    /\ dict_get reg2 (m, a, b, fa, fb) = Some (set_reverse_created r1)
    /\ dict_get reg2 (m', b, a, fb, fa) = Some r2.
Proof.
  intros Hflip Hne Hnone.
  destruct (flip_mode_Ok _ _ Hflip) as [Hm _].
  destruct (flip_mode_valid _ Hm) as (m2 & H1 & Hflip').
  rewrite Hflip in H1. injection H1 as <-.
  set (r1 := {| mode := m; modelA := a; modelB := b; fieldA := fa;
                fieldB := Some fb; reverse_created := false |}).
  set (r2 := {| mode := m'; modelA := b; modelB := a; fieldA := fb;
                fieldB := Some fa; reverse_created := true |}).
  exists (dict_set reg (m, a, b, fa, fb) r1),
    (dict_set (dict_set (dict_set reg (m, a, b, fa, fb) r1) (m', b, a, fb, fa) r2)
       (m, a, b, fa, fb) (set_reverse_created r1)),
    r1, r2.
  assert (Hne' : (m, a, b, fa, fb) <> (m', b, a, fb, fa)) by congruence.
  repeat apply conj; try done.
  - unfold init, new_record, check_for_reverse, get_reverse_key, registry_find.
    simpl. rewrite Hflip. simpl.
    rewrite !dict_get_set_ne by done. by rewrite Hnone.
  - unfold init, new_record, check_for_reverse, get_reverse_key, registry_find.
    simpl. rewrite Hflip'. simpl.
    rewrite dict_set_set.
    repeat first [rewrite dict_get_set_eq | rewrite dict_get_set_ne by done].
    simpl.
    repeat first [rewrite dict_get_set_eq | rewrite dict_get_set_ne by done].
    done.
  - apply dict_get_set_eq.
  - rewrite dict_get_set_ne by done. apply dict_get_set_eq.
Qed.

Lemma init_both_sides_witness :
  exists reg1 reg2 r1 r2,
    init [] (ModeStr "OneToMany") "Author" "Book" "books" (Some "author")
    = (reg1, Ok r1)
    /\ reverse_created r1 = false
    /\ init reg1 (ModeStr "ManyToOne") "Book" "Author" "author" (Some "books")
       = (reg2, Ok r2)
    /\ reverse_created r2 = true
    /\ dict_get reg2 ("OneToMany", "Author", "Book", "books", "author")
       = Some (set_reverse_created r1)
    /\ dict_get reg2 ("ManyToOne", "Book", "Author", "author", "books") = Some r2.
Proof.
  apply (init_both_sides [] "OneToMany" "ManyToOne" "Author" "Book" "books" "author").
  - reflexivity.
  - discriminate.
  - reflexivity.
Defined.

Lemma flip_mode_invalid s :
  ~ valid_mode s -> flip_mode s = Raise (ValueError "reverse not found").
Proof.
  intros Hs. unfold flip_mode, valid_mode in *.
  destruct (String.eqb_spec s ONE_TO_ONE); [tauto|].
  destruct (String.eqb_spec s ONE_TO_MANY); [tauto|].
  destruct (String.eqb_spec s MANY_TO_ONE); [tauto|].
  destruct (String.eqb_spec s MANY_TO_MANY); [tauto|]. done.
Qed.

Lemma default_fieldB_invalid s mA : ~ valid_mode s -> default_fieldB s mA None = None.
Proof.
  intros Hs. unfold default_fieldB, valid_mode in *.
  destruct (String.eqb_spec s ONE_TO_ONE); [tauto|].
  destruct (String.eqb_spec s ONE_TO_MANY); [tauto|].
  destruct (String.eqb_spec s MANY_TO_ONE); [tauto|].
  destruct (String.eqb_spec s MANY_TO_MANY); [tauto|]. done.
Qed.

(** X5. A mode string outside the four modes is refused only after the
    record has been written: with a reverse field name the constructor
    stores the record, unresolved, and then raises a [ValueError]; without
    one nothing is stored and [get_key] fails by unbounded recursion. *)
Theorem init_invalid_mode_string reg s a b fa :
  ~ valid_mode s ->
  (forall fb,
      init reg (ModeStr s) a b fa (Some fb)
      = (dict_set reg (s, a, b, fa, fb)
           {| mode := s; modelA := a; modelB := b; fieldA := fa;
              fieldB := Some fb; reverse_created := false |},
         Raise (ValueError "reverse not found")))
  /\ init reg (ModeStr s) a b fa None = (reg, Raise RecursionError).
Proof.
  intros Hs. split.
  - intros fb. unfold init, new_record, check_for_reverse, get_reverse_key.
    simpl. by rewrite (flip_mode_invalid _ Hs).
  - unfold init, new_record. cbn [resolve_mode bind].
    by rewrite (default_fieldB_invalid _ _ Hs).
Qed.

Lemma init_invalid_mode_string_witness :
  init [] (ModeStr "Foreign") "Book" "Author" "author" None
  = ([], Raise RecursionError).
Proof.
  refine (proj2 (init_invalid_mode_string [] "Foreign" "Book" "Author" "author" _)).
  unfold valid_mode. intros [H|[H|[H|H]]]; discriminate H.
Defined.

Lemma mapM_raises {A B : Type} (P : exn -> Prop) (f : A -> result B) (l : list A) a :
  (forall x e, f x = Raise e -> P e) ->
  In a l -> (exists e, f a = Raise e) ->
  exists e, mapM f l = Raise e /\ P e.
Proof.
  intros HP. induction l as [|x l IH]; simpl; [done|].
  intros [->|Hin] Hraise.
  - destruct Hraise as [e He]. rewrite He. simpl. eauto.
  - destruct (f x) as [b|e] eqn:Hx; simpl; [|eauto].
    destruct (IH Hin Hraise) as (e & -> & He). simpl. eauto.
Qed.

(** X6. The readiness check is not total: when an unresolved record whose
    mode is none of the four points at an installed typed model, the check
    raises a [ValueError] instead of returning warnings. *)
Theorem reverse_foreign_key_warning_raises reg all_models model r :
  In model (concat all_models) ->
  is_typed_model model = true ->
  In r (dict_values reg) ->
  modelB r = model_name model ->
  reverse_created r = false ->
  ~ valid_mode (mode r) ->
  exists msg, reverse_foreign_key_warning reg all_models = Raise (ValueError msg).
Proof.
  intros Hmodel Htyped Hin HB Hflag Hmode.
  assert (Hw : forall mdl x e, warning_for mdl x = Raise e -> exists msg, e = ValueError msg).
  { intros mdl x e. unfold warning_for, reverse_mode, flip_mode.
    repeat case_match; simpl; intros [= <-]; eauto. }
  assert (Hm : forall mdl e, warnings_for_model reg mdl = Raise e ->
            exists msg, e = ValueError msg).
  { intros mdl e. unfold warnings_for_model. destruct (is_typed_model mdl); [|done].
    induction (check_model_valid reg (model_name mdl)) as [|x l IH]; simpl; [done|].
    destruct (warning_for mdl x) as [w|e'] eqn:Hx; simpl.
    - destruct (mapM (warning_for mdl) l); simpl; [done|]. intros [= <-]. by apply IH.
    - intros [= <-]. by eapply Hw. }
  destruct (mapM_raises (fun e => exists msg, e = ValueError msg)
              (warnings_for_model reg) (concat all_models) model Hm Hmodel)
    as (e & He & msg & ->).
  - unfold warnings_for_model. rewrite Htyped.
    destruct (mapM_raises (fun _ => True) (warning_for model)
                (check_model_valid reg (model_name model)) r) as (e & -> & _);
      eauto.
    + apply check_model_valid_In. auto.
    + unfold warning_for, reverse_mode. rewrite (flip_mode_invalid _ Hmode).
      simpl. eauto.
  - exists msg. unfold reverse_foreign_key_warning. by rewrite He.
Qed.

Lemma reverse_foreign_key_warning_raises_witness :
  exists msg,
    reverse_foreign_key_warning
      (fst (init [] (ModeStr "Foreign") "Book" "Author" "author" (Some "books")))
      installed
    = Raise (ValueError msg).
Proof.
  refine (reverse_foreign_key_warning_raises _ installed
    {| model_name := "Author"; app_label := "library"; is_typed_model := true |}
    {| mode := "Foreign"; modelA := "Book"; modelB := "Author"; fieldA := "author";
       fieldB := Some "books"; reverse_created := false |} _ eq_refl _ eq_refl eq_refl _).
  - simpl. auto.
  - simpl. auto.
  - unfold valid_mode. simpl. intros [H|[H|[H|H]]]; discriminate H.
Defined.

(** X7. [check_model_valid] selects, among the records
    [all_relationships_resolved] returns, those pointing at the model; when
    no relationship is left unresolved the readiness check returns no
    warning, whatever models are installed. *)
Theorem all_resolved_no_warnings (reg : registry) :
  (forall model r,
      In r (check_model_valid reg model)
      <-> In r (all_relationships_resolved reg) /\ modelB r = model)
  /\ (all_relationships_resolved reg = [] ->
      forall all_models, reverse_foreign_key_warning reg all_models = Ok []).
Proof.
  assert (Hin : forall model r,
             In r (check_model_valid reg model)
             <-> In r (all_relationships_resolved reg) /\ modelB r = model).
  { intros model r. unfold check_model_valid, all_relationships_resolved.
    rewrite <- !list_elem_of_In, !list_elem_of_filter. tauto. }
  split; [done|]. intros Hnone all_models.
  assert (Hempty : forall model, check_model_valid reg model = []).
  { intros model. destruct (check_model_valid reg model) as [|r l] eqn:Hc; [done|].
    assert (Hr : In r (check_model_valid reg model)) by (rewrite Hc; by left).
    apply Hin in Hr as [Hr _]. rewrite Hnone in Hr. destruct Hr. }
  unfold reverse_foreign_key_warning.
  assert (Hmap : forall l, exists per,
             mapM (warnings_for_model reg) l = Ok per /\ concat per = []).
  { induction l as [|model l (per & Hper & Hcat)]; simpl; [by exists []|].
    unfold warnings_for_model at 1. rewrite Hempty.
    destruct (is_typed_model model); simpl; rewrite Hper; simpl;
      exists ([] :: per); (split; [done|exact Hcat]). }
  destruct (Hmap (concat all_models)) as (per & -> & Hcat). simpl. by rewrite Hcat.
Qed.

Lemma all_resolved_no_warnings_witness :
  reverse_foreign_key_warning paired_registry installed = Ok [].
Proof.
  exact (proj2 (all_resolved_no_warnings paired_registry) eq_refl installed).
Defined.



Lemma str_to_mode_valid s m : str_to_mode s = Ok m -> valid_mode m.
Proof.
  unfold str_to_mode, valid_mode.
  repeat case_match; intros [= <-]; auto 6; discriminate.
Qed.

Lemma field_type_to_mode_valid t m : field_type_to_mode t = Ok m -> valid_mode m.
Proof.
  unfold field_type_to_mode, valid_mode.
  repeat case_match; intros [= <-]; auto 6; discriminate.
Qed.

Lemma init_outcome_modes_valid reg m mA mB fA fB reg' out :
  init_outcome reg m mA mB fA fB reg' out ->
  (forall self, new_record m mA mB fA fB = Ok self -> valid_mode (mode self)) ->
  registry_modes_valid reg -> registry_modes_valid reg'.
Proof.
  intros Hout Hself Hvalid x Hin.
  destruct Hout; try (by apply Hvalid);
    repeat (apply dict_values_set_In in Hin as [->|Hin]);
    try (by apply Hvalid); simpl; eauto.
  apply Hvalid. by eapply dict_get_Some_values.
Qed.

(** X9. Only a raw string can bring a mode outside the four into the
    registry: a class, a [RelatedBase] instance or a generic alias is either
    converted to one of the four modes or refused before anything is stored;
    so a call whose mode is not a string outside the four keeps a registry
    of valid modes valid, whether it returns or raises. *)
Theorem init_keeps_modes_valid reg m mA mB fA fB :
  (forall s, m = ModeStr s -> valid_mode s) ->
  (forall s, resolve_mode m = Ok s -> valid_mode s)
  /\ (forall e, resolve_mode m = Raise e -> init reg m mA mB fA fB = (reg, Raise e))
  /\ (registry_modes_valid reg -> registry_modes_valid (fst (init reg m mA mB fA fB))).
Proof.
  intros Hstr.
  assert (Hres : forall s, resolve_mode m = Ok s -> valid_mode s).
  { destruct m as [s|t|c|c]; simpl; intros s'.
    - intros [= <-]. by apply Hstr.
    - apply field_type_to_mode_valid.
    - apply str_to_mode_valid.
    - apply str_to_mode_valid. }
  repeat apply conj; [done| |].
  - intros e He. unfold init, new_record. by rewrite He.
  - intros Hvalid. eapply init_outcome_modes_valid; [apply init_sound| |done].
    intros self. unfold new_record.
    destruct (resolve_mode m) as [s|] eqn:Hs; simpl; [|done].
    intros [= <-]. simpl. by apply Hres.
Qed.

Lemma init_keeps_modes_valid_witness :
  registry_modes_valid
    (fst (init book_registry (ModeType OneToManyFieldStandIn)
            "Author" "Book" "books" (Some "author"))).
Proof.
  refine (proj2 (proj2 (init_keeps_modes_valid book_registry
    (ModeType OneToManyFieldStandIn) "Author" "Book" "books" (Some "author") _))
    book_registry_modes_valid).
  intros s H. discriminate H.
Defined.

(** * Further properties of the metaclass *)

Lemma register_field_object_cases reg name variable f :
  (exists e, register_field_object reg name variable f = (reg, Raise e))
  \/ exists m mB,
       valid_mode m
       /\ register_field_object reg name variable f
          = init reg (ModeStr m) name mB variable (remote_related_name f).
Proof.
  unfold register_field_object, valid_mode.
  destruct (many_to_many (fo_class f)), (one_to_one (fo_class f)),
    (one_to_many (fo_class f)), (many_to_one (fo_class f));
    destruct (remote_model f) as [mB|e]; eauto 10.
Qed.

Lemma register_field_object_reachable reg name variable f :
  reachable reg -> reachable (fst (register_field_object reg name variable f)).
Proof.
  intros Hreach.
  destruct (register_field_object_cases reg name variable f)
    as [[e ->]|(m & mB & _ & ->)]; [done|by constructor].
Qed.

Lemma register_field_object_modes_valid reg name variable f :
  registry_modes_valid reg ->
  registry_modes_valid (fst (register_field_object reg name variable f)).
Proof.
  intros Hvalid.
  destruct (register_field_object_cases reg name variable f)
    as [[e ->]|(m & mB & Hm & ->)]; [done|].
  eapply init_outcome_modes_valid; [apply init_sound| |done].
  intros self [= <-]. done.
Qed.

(** What a step of the loop does to the registry: nothing, or one call of
    [register_field_object]. *)
Lemma process_attribute_relations lr name st annotation :
  relations (fst (process_attribute lr name st annotation)) = relations st
  \/ exists f,
       relations (fst (process_attribute lr name st annotation))
       = fst (register_field_object (relations st) name (fst annotation) f).
Proof.
  destruct annotation as [variable field_type].
  unfold process_attribute, convert_attribute, install_field.
  repeat case_match; simpl; auto;
    right; eexists;
    match goal with
    | H : register_field_object _ _ _ ?f = _ |- _ = fst (register_field_object _ _ _ _) =>
        by rewrite H
    end.
Qed.

Lemma process_annotations_relations (P : registry -> Prop) lr name annotations st :
  (forall reg n v f, P reg -> P (fst (register_field_object reg n v f))) ->
  P (relations st) ->
  P (relations (fst (process_annotations lr name annotations st))).
Proof.
  intros Hstep. revert st.
  induction annotations as [|annotation rest IH]; intros st HP; [done|].
  cbn [process_annotations].
  assert (HP' : P (relations (fst (process_attribute lr name st annotation)))).
  { destruct (process_attribute_relations lr name st annotation) as [->|[f ->]];
      auto. }
  destruct (process_attribute lr name st annotation) as [st' [[]|e]]; simpl in *;
    auto.
Qed.

Lemma TypedModelBase_new_relations (P : registry -> Prop) lr name annotations kwargs st :
  (forall reg n v f, P reg -> P (fst (register_field_object reg n v f))) ->
  P (relations st) ->
  P (relations (fst (TypedModelBase_new lr name annotations kwargs st))).
Proof.
  intros Hstep HP.
  pose proof (process_annotations_relations P lr name annotations st Hstep HP) as H.
  unfold TypedModelBase_new.
  destruct (process_annotations lr name annotations st) as [st' [[]|e]];
    [destruct kwargs|]; exact H.
Qed.

Lemma reverse_foreign_key_warning_total reg all_models :
  registry_modes_valid reg ->
  exists ws, reverse_foreign_key_warning reg all_models = Ok ws.
Proof.
  intros Hvalid. unfold reverse_foreign_key_warning.
  destruct (mapM_total (warnings_for_model reg) (concat all_models)) as (per & -> & _).
  - intros model _.
    destruct (warnings_for_model_total reg model Hvalid) as (ws & Hws & _). eauto.
  - simpl. eauto.
Qed.

(** X10. The metaclass writes to the registry only through
    [ForeignRegistry] constructions with one of the four modes: whether
    [__new__] returns or raises, a reachable registry stays reachable, a
    registry of valid modes keeps valid modes, and the readiness check run
    on it afterwards returns without raising. *)
Theorem TypedModelBase_new_registry lr name annotations kwargs st :
  (reachable (relations st) ->
   reachable (relations (fst (TypedModelBase_new lr name annotations kwargs st))))
  /\ (registry_modes_valid (relations st) ->
      registry_modes_valid
        (relations (fst (TypedModelBase_new lr name annotations kwargs st)))
      /\ forall all_models, exists ws,
           reverse_foreign_key_warning
             (relations (fst (TypedModelBase_new lr name annotations kwargs st)))
             all_models = Ok ws).
Proof.
  split.
  - apply TypedModelBase_new_relations. intros reg n v f.
    apply register_field_object_reachable.
  - intros Hvalid.
    assert (Hvalid' : registry_modes_valid
              (relations (fst (TypedModelBase_new lr name annotations kwargs st)))).
    { revert Hvalid. apply TypedModelBase_new_relations. intros reg n v f.
      apply register_field_object_modes_valid. }
    split; [done|]. intros all_models.
    by apply reverse_foreign_key_warning_total.
Qed.

Lemma TypedModelBase_new_registry_witness :
  reachable
    (relations (fst (TypedModelBase_new types_to_fields "Book"
       [("author", HRelated ManyToOne (OStr "Author"))] [] book_class_state))).
Proof.
  exact (proj1 (TypedModelBase_new_registry types_to_fields "Book"
    [("author", HRelated ManyToOne (OStr "Author"))] [] book_class_state)
    reachable_empty).
Defined.

(** X11. [__new__] leaves alone every entry of the class dictionary that
    is not annotated (methods, [__module__], ...), except that "Meta" is
    overwritten when class keyword arguments are given; when it returns with
    keyword arguments, "Meta" holds the class built from them. *)
Theorem TypedModelBase_new_frame lr name annotations kwargs st :
  (forall key,
      ~ In key (map fst annotations) ->
      key <> "Meta" \/ kwargs = [] ->
      dict_get (class_dict (fst (TypedModelBase_new lr name annotations kwargs st))) key
      = dict_get (class_dict st) key)
  /\ (forall st',
        TypedModelBase_new lr name annotations kwargs st = (st', Ok tt) ->
        kwargs <> [] ->
        dict_get (class_dict st') "Meta" = Some (VMeta kwargs)).
Proof.
  assert (Hloop : forall key anns st0,
            ~ In key (map fst anns) ->
            dict_get (class_dict (fst (process_annotations lr name anns st0))) key
            = dict_get (class_dict st0) key).
  { intros key anns. induction anns as [|[variable field_type] rest IH];
      intros st0 Hnot; [done|]. cbn [process_annotations].
    simpl in Hnot.
    destruct (process_attribute lr name st0 (variable, field_type))
      as [st1 out] eqn:Hstep.
    assert (Hframe : dict_get (class_dict st1) key = dict_get (class_dict st0) key).
    { eapply process_attribute_frame; [done|]. left. intros ->. tauto. }
    destruct out as [[]|e]; simpl; [|done].
    rewrite IH by tauto. done. }
  split.
  - intros key Hnot Hmeta. specialize (Hloop key annotations st Hnot).
    unfold TypedModelBase_new.
    destruct (process_annotations lr name annotations st) as [st' [[]|e]];
      simpl in *; [|done].
    destruct kwargs as [|kw kwargs]; simpl; [done|].
    destruct Hmeta as [Hmeta|]; [|done]. by rewrite dict_get_set_ne.
  - intros st'. unfold TypedModelBase_new.
    destruct (process_annotations lr name annotations st) as [st1 [[]|e]];
      [|discriminate].
    destruct kwargs as [|kw kwargs]; intros [= <-] Hkw; [done|].
    simpl. apply dict_get_set_eq.
Qed.

Lemma TypedModelBase_new_frame_witness :
  dict_get (class_dict (fst (TypedModelBase_new types_to_fields "Book"
      [("author", HRelated ManyToOne (OStr "Author"))]
      [("abstract", KBool true)]
      {| class_dict := [("__module__", VStr "library.models")]; relations := [] |})))
    "__module__"
  = Some (VStr "library.models").
Proof.
  refine (proj1 (TypedModelBase_new_frame types_to_fields "Book"
    [("author", HRelated ManyToOne (OStr "Author"))] [("abstract", KBool true)]
    {| class_dict := [("__module__", VStr "library.models")]; relations := [] |})
    "__module__" _ _).
  - simpl. intros [H|[]]. discriminate H.
  - left. discriminate.
Defined.

Lemma dict_get_not_in_keys {K V : Type} `{EqDecision K} (d : dict K V) k :
  ~ In k (dict_keys d) -> dict_get d k = None.
Proof.
  induction d as [|[k0 v0] d IH]; simpl; [done|]. intros Hnot.
  destruct (decide (k = k0)) as [->|]; [tauto|]. apply IH. tauto.
Qed.

Lemma dict_get_del_set_eq {K V : Type} `{EqDecision K} (d : dict K V) k v :
  NoDup (dict_keys d) -> dict_get (dict_del (dict_set d k v) k) k = None.
Proof.
  induction d as [|[k0 v0] d IH]; simpl; intros Hnd.
  - by rewrite decide_True.
  - apply NoDup_cons in Hnd as [Hk0 Hnd].
    destruct (decide (k = k0)) as [->|Hne]; simpl.
    + rewrite decide_True by done.
      apply dict_get_not_in_keys. by rewrite <- list_elem_of_In.
    + rewrite decide_False by done. simpl. rewrite decide_False by done. auto.
Qed.

(** X12. What a relationship attribute leaves in the class dictionary:
    when the field is a [ManyToManyField] or a [OneToOneField] whose
    reverse is already registered, the entry is removed, so that only one
    end reaches Django; in every other case, the [OneToManyFieldStandIn]
    included, the field object is installed under the name. *)
Theorem install_field_entry name variable fobj st st' :
  NoDup (dict_keys (class_dict st)) ->
  is_relation_field fobj = true ->
  install_field name variable fobj st = (st', Ok tt) ->
  exists registered,
    register_field_object (relations st) name variable fobj
    = (relations st', Ok registered)
    /\ ((issubclass (fo_class fobj) "ManyToManyField"
         || issubclass (fo_class fobj) "OneToOneField") = true ->
        reverse_created registered = true ->
        dict_get (class_dict st') variable = None)
    /\ ((issubclass (fo_class fobj) "ManyToManyField"
         || issubclass (fo_class fobj) "OneToOneField") = false
        \/ reverse_created registered = false ->
        dict_get (class_dict st') variable = Some (VField fobj)).
Proof.
  intros Hnd Hrel. unfold install_field. rewrite Hrel.
  destruct (register_field_object (relations st) name variable fobj)
    as [reg' [registered|e]]; [|discriminate].
  intros [= <-]. simpl. exists registered. split; [done|]. split.
  - intros -> ->. simpl. by apply dict_get_del_set_eq.
  - intros [->| ->]; rewrite ?andb_false_r; simpl; apply dict_get_set_eq.
Qed.

Lemma install_field_entry_witness :
  exists registered,
    register_field_object (relations tag_class_state) "Book" "tags" tags_field
    = (relations (fst (install_field "Book" "tags" tags_field tag_class_state)),
       Ok registered)
    /\ dict_get
         (class_dict (fst (install_field "Book" "tags" tags_field tag_class_state)))
         "tags" = None.
Proof.
  destruct (install_field_entry "Book" "tags" tags_field tag_class_state
    (fst (install_field "Book" "tags" tags_field tag_class_state))
    (NoDup_nil_2 (A:=string)) eq_refl eq_refl) as (registered & Hreg & Hdel & _).
  exists registered. split; [exact Hreg|]. apply Hdel; [reflexivity|].
  vm_compute in Hreg. by injection Hreg as <-.
Defined.

(** X13. [FieldLookup.item] builds an object of the lookup's class; a
    non-empty string default is passed under the lookup's default key,
    overriding whatever was there, while an empty string is dropped like a
    missing default. *)
Theorem item_default lk null blank :
  item lk (Some "") null blank = item lk None null blank
  /\ (forall default fobj,
        item lk default null blank = Ok fobj -> fo_class fobj = field lk)
  /\ (forall s fobj,
        s <> "" ->
        item lk (Some s) null blank = Ok fobj ->
        dict_get (fo_kwargs fobj) (default_key lk) = Some (KStr s)).
Proof.
  repeat apply conj; [done| |].
  - intros default fobj. unfold item, instantiate.
    repeat case_match; intros [= <-]; done.
  - intros s fobj Hs. unfold item.
    destruct s as [|c s]; [done|]. simpl nonempty. cbv iota.
    unfold instantiate. repeat case_match; intros [= <-]; simpl;
      apply dict_get_set_eq.
Qed.

Lemma item_default_witness :
  dict_get
    (fo_kwargs {| fo_class := models.CharField;
                  fo_kwargs := [("max_length", KInt 255); ("default", KStr "hello")] |})
    "default"
  = Some (KStr "hello").
Proof.
  refine (proj2 (proj2 (item_default
    (mk_lookup models.CharField "default" [("max_length", KInt 255)]) false false))
    "hello" _ _ eq_refl).
  discriminate.
Defined.

(** X14. [FieldTypeRegistry.register] followed by [get_django_lookup]: a
    class that is no model gets the lookup just registered, the lookups of
    classes of other names are unchanged, and registering a lookup for a
    model class has no effect, since a model class is always a foreign
    key. *)
Theorem register_then_lookup lr c f :
  (issubclass c "Model" = false ->
   get_django_lookup (register lr c f) (HObj (OClass c)) = Ok (Some f))
  /\ (forall d, cls_name d <> cls_name c ->
        get_django_lookup (register lr c f) (HObj (OClass d))
        = get_django_lookup lr (HObj (OClass d)))
  /\ (issubclass c "Model" = true ->
      get_django_lookup (register lr c f) (HObj (OClass c))
      = get_django_lookup lr (HObj (OClass c))).
Proof.
  repeat apply conj.
  - intros Hc. unfold get_django_lookup. simpl. rewrite Hc. simpl.
    unfold register. by rewrite dict_get_set_eq.
  - intros d Hd. unfold get_django_lookup. simpl.
    destruct (issubclass d "Model"); simpl; [done|].
    unfold register. by rewrite dict_get_set_ne.
  - intros Hc. unfold get_django_lookup. simpl. by rewrite Hc.
Qed.

Lemma register_then_lookup_witness :
  get_django_lookup
    (register types_to_fields py_complex (mk_lookup models.JSONField "default" []))
    (HObj (OClass py_complex))
  = Ok (Some (mk_lookup models.JSONField "default" [])).
Proof.
  exact (proj1 (register_then_lookup types_to_fields py_complex
    (mk_lookup models.JSONField "default" [])) eq_refl).
Defined.

(** X15. A generic alias other than the relationship forms is looked up
    by its origin alone: [list[int]] and [list[str]] get the lookup of
    [list]. *)
Theorem generic_alias_lookup lr c args :
  cls_name c <> "ManyToMany" ->
  cls_name c <> "OneToMany" ->
  cls_name c <> "GenericManager" \/ args <> [OAny] ->
  get_django_lookup lr (HAlias (Some c) args) = Ok (dict_get lr (cls_name c)).
Proof.
  intros H1 H2 H3.
  assert (Hgm : is_GenericManager_Any (HAlias (Some c) args) = false).
  { simpl. destruct H3 as [H3|H3].
    - rewrite (proj2 (String.eqb_neq _ _) H3). by repeat case_match.
    - destruct args as [|[] [|]]; try done. }
  unfold get_django_lookup. cbn -[is_GenericManager_Any].
  rewrite (proj2 (String.eqb_neq _ _) H1), (proj2 (String.eqb_neq _ _) H2).
  rewrite Hgm. done.
Qed.

Lemma generic_alias_lookup_witness :
  get_django_lookup types_to_fields (HAlias (Some py_list) [OClass py_int])
  = Ok (dict_get types_to_fields "list").
Proof.
  apply (generic_alias_lookup types_to_fields py_list [OClass py_int]).
  - discriminate.
  - discriminate.
  - left. discriminate.
Defined.

(** X16. An [Annotated] hint is resolved from its metadata alone: neither
    the lookup table nor the annotated type plays a part, the answer is
    never [None], a single [FieldLookup] is returned as it is, and any
    failure is a [ValueError] or a [TypeError]. *)
Theorem annotated_lookup lr origin metadata :
  get_django_lookup lr (HAnnotated origin metadata)
  = get_django_lookup [] (HAnnotated OAny metadata)
  /\ get_django_lookup lr (HAnnotated origin metadata) <> Ok None
  /\ (forall lk, metadata = [MLookup lk] ->
        get_django_lookup lr (HAnnotated origin metadata) = Ok (Some lk))
  /\ (forall e, get_django_lookup lr (HAnnotated origin metadata) = Raise e ->
        exists msg, e = ValueError msg \/ e = TypeError msg).
Proof.
  repeat apply conj.
  - reflexivity.
  - unfold get_django_lookup, lookup_of_options. simpl.
    repeat case_match; simpl; discriminate.
  - intros lk ->. reflexivity.
  - intros e. unfold get_django_lookup, lookup_of_options. simpl.
    repeat case_match; simpl; intros [= <-]; eauto.
Qed.

Lemma annotated_lookup_witness :
  get_django_lookup types_to_fields
    (HAnnotated (OClass py_str) [MLookup (mk_lookup models.CharField "default" [])])
  = Ok (Some (mk_lookup models.CharField "default" [])).
Proof.
  exact (proj1 (proj2 (proj2 (annotated_lookup types_to_fields (OClass py_str)
    [MLookup (mk_lookup models.CharField "default" [])]))) _ eq_refl).
Defined.

(** X17. [fix_self] is idempotent, changes nothing but [Self] and "Self",
    which become "self", and never returns either of them. *)
Theorem fix_self_idempotent obj :
  fix_self (fix_self obj) = fix_self obj
  /\ (fix_self obj = obj \/ fix_self obj = OStr "self")
  /\ (obj <> OSelf -> obj <> OStr "Self" -> fix_self obj = obj)
  /\ fix_self obj <> OSelf
  /\ fix_self obj <> OStr "Self".
Proof.
  destruct obj as [c|s| |s|]; simpl; try (repeat apply conj; auto; congruence).
  destruct (String.eqb_spec s "Self") as [->|Hs]; simpl.
  - repeat apply conj; auto; congruence.
  - rewrite (proj2 (String.eqb_neq _ _) Hs).
    repeat apply conj; auto; congruence.
Qed.

Lemma fix_self_idempotent_witness : fix_self (OStr "Author") = OStr "Author".
Proof.
  refine (proj1 (proj2 (proj2 (fix_self_idempotent (OStr "Author")))) _ _);
    discriminate.
Defined.

Lemma all_chars_app p a b : all_chars p (a ++ b) = all_chars p a && all_chars p b.
Proof.
  induction a as [|c a IH]; simpl; [done|]. by rewrite IH, andb_assoc.
Qed.

(** X18. A name is snake case exactly when each of its parts is: the test
    distributes over concatenation, and the empty name passes it. *)
Theorem is_snake_case_app a b :
  is_snake_case (a ++ b) = is_snake_case a && is_snake_case b
  /\ is_snake_case "" = true.
Proof. split; [apply all_chars_app|reflexivity]. Qed.

Lemma lower_char_islower c :
  isupper c || islower c || Ascii.eqb c "_"%char = true ->
  islower (lower_char c) || Ascii.eqb (lower_char c) "_"%char = true.
Proof.
  destruct c as [[] [] [] [] [] [] [] []]; vm_compute; intros H;
    first [reflexivity | discriminate H].
Qed.

Lemma lower_snake_case s :
  all_chars (fun c => isupper c || islower c || Ascii.eqb c "_"%char) s = true ->
  is_snake_case (lower s) = true.
Proof.
  unfold is_snake_case. induction s as [|c s IH]; simpl; [done|].
  intros [Hc Hs]%andb_true_iff. by rewrite lower_char_islower, IH.
Qed.

Lemma all_chars_impl (p q : ascii -> bool) s :
  (forall c, p c = true -> q c = true) -> all_chars p s = true -> all_chars q s = true.
Proof.
  intros Hpq. induction s as [|c s IH]; simpl; [done|].
  intros [Hc Hs]%andb_true_iff. by rewrite (Hpq _ Hc), IH.
Qed.

(** X19. For a model whose name is made of ASCII letters and underscores,
    the reverse field name the registry fills in for any of the four modes is
    a snake-case name, the kind of name the metaclass converts. *)
Theorem default_fieldB_snake_case m mA :
  valid_mode m ->
  all_chars (fun c => isascii c && (isupper c || islower c)
                      || Ascii.eqb c "_"%char) mA = true ->
  exists fb, default_fieldB m mA None = Some fb /\ is_snake_case fb = true.
Proof.
  intros Hm HmA. rewrite (default_fieldB_valid _ _ Hm). eexists. split; [done|].
  assert (Hlow : is_snake_case (lower mA) = true).
  { apply lower_snake_case. revert HmA. apply all_chars_impl.
    intros c. destruct (isascii c); simpl; [done|].
    intros ->. apply orb_true_r. }
  destruct (String.eqb m ONE_TO_ONE); [done|].
  unfold is_snake_case in *. rewrite all_chars_app, Hlow. reflexivity.
Qed.

Lemma default_fieldB_snake_case_witness :
  exists fb, default_fieldB "ManyToOne" "BlogPost" None = Some fb
    /\ is_snake_case fb = true.
Proof.
  apply (default_fieldB_snake_case "ManyToOne" "BlogPost").
  - right. right. left. reflexivity.
  - reflexivity.
Defined.
